(** * Verification of the COT/price backtesting core of profdue/cotcot

    Shallow embedding of [src/utils/backtester.py] (class [Backtester]),
    [src/data_engine.py] (class [DataEngine]) and
    [src/simple_backtester.py] (class [SimpleBacktester]).

    Modelling choices:
    - dates ([pd.Timestamp]) are [Z] day numbers; [timedelta(days=k)] is [+ k];
    - prices, pips and money amounts (Python floats) are rationals [Q];
    - COT position counts and thresholds (Python ints) are [Z];
    - a DataFrame is a list of records, one per row, in row order;
    - a method returning [None] returns [None] of an [option];
    - [DataFrame.sort_values] with its default [kind='quicksort'] is documented
      by pandas as not stable: it is a parameter [sort_values] of which only
      its contract is known (a permutation of the rows, sorted by the key). *)

From Stdlib Require Import ZArith QArith Qround Qabs List Bool Lia Lqa Permutation Sorting.Sorted.
From Stdlib Require Import String Ascii.
Import ListNotations.

Open Scope Z_scope.

(** Strict comparison of floats, [x < y]. *)
Definition Qltb (x y : Q) : bool := negb (Qle_bool y x).

(** ** Row types *)

(** A row of the COT table ([DataEngine.load_cot_data], line 41). *)
Record cot_row := mk_cot {
  cot_date : Z;
  commercial_long : Z;
  commercial_short : Z;
  commercial_net : Z
}.

(** A row of [Backtester.price_data]: columns [date] and [price]. *)
Record price_row := mk_price {
  date : Z;
  price : Q
}.

(** A row appended to [aligned_data] in [align_cot_with_prices] (lines 270-280). *)
Record aligned_row := mk_aligned {
  ar_cot_date : Z;
  ar_entry_date : Z;
  ar_exit_date : Z;
  ar_entry_price : Q;
  ar_exit_price : Q;
  ar_commercial_net : Z;
  ar_pips : Q;
  ar_pct_return : Q;
  ar_price_change : Q
}.

(** A row of [trades_df] returned by [backtest_threshold] (lines 305-330). *)
Record sim_trade := mk_sim {
  tr_row : aligned_row;
  tr_signal : Z;
  tr_net_pips : Q;
  tr_trade_profit : Q;
  tr_cumulative_profit : Q;
  tr_equity : Q;
  tr_win : bool
}.

(** The fields of a [Backtester] object read by the methods modelled here. *)
Record Backtester := mk_backtester {
  bt_cot_data : option (list cot_row);
  bt_price_data : option (list price_row)
}.

(** ** The sort of pandas *)

(** The contract of [DataFrame.sort_values(key)] with the default, unstable,
    quicksort: the result is a permutation of the rows, ascending by key. *)
Definition sort_contract (sort_values : forall A : Type, (A -> Z) -> list A -> list A) : Prop :=
  forall (A : Type) (k : A -> Z) (l : list A),
    Permutation (sort_values A k l) l /\ Sorted (fun x y => k x <= k y) (sort_values A k l).

(** Insertion of [x] before the first [y] with [cmp (k x) (k y)]. *)
Fixpoint insert_by {A : Type} (cmp : Z -> Z -> bool) (k : A -> Z) (x : A) (l : list A) : list A :=
  match l with
  | [] => [x]
  | y :: l' => if cmp (k x) (k y) then x :: y :: l' else y :: insert_by cmp k x l'
  end.

Definition isort_by {A : Type} (cmp : Z -> Z -> bool) (k : A -> Z) (l : list A) : list A :=
  fold_right (insert_by cmp k) [] l.

(** A stable sort (ties keep their order); it meets [sort_contract]. *)
Definition stable_sort (A : Type) (k : A -> Z) (l : list A) : list A := isort_by Z.leb k l.

(** ** [Backtester.__init__] and [set_price_data] *)

(** [__init__(cot_data, price_data)]: price data are sorted by [date]. *)
Definition Backtester_init (sort_values : forall A : Type, (A -> Z) -> list A -> list A)
    (cot_data : option (list cot_row)) (price_data : option (list price_row)) : Backtester :=
  mk_backtester cot_data (option_map (sort_values price_row date) price_data).

(** ** [Backtester.align_cot_with_prices] (lines 223-292) *)

(** [df[mask].iloc[0]]: the first row, in table order, satisfying [mask]. *)
Definition first_row {A : Type} (mask : A -> bool) (l : list A) : option A := find mask l.

(** One iteration of the loop body, lines 244-280: [None] is [continue]. *)
Definition align_one (price_df : list price_row) (c : cot_row) : option aligned_row :=
  let cot_date := cot_date c in
  let cot_net := commercial_net c in
  match first_row (fun p => cot_date <? date p) price_df with
  | None => None
  | Some entry_price_data =>
      let entry_price := price entry_price_data in
      let entry_date := date entry_price_data in
      let exit_date_target := cot_date + 7 in
      match first_row (fun p => exit_date_target <=? date p) price_df with
      | None => None
      | Some exit_price_data =>
          let exit_price := price exit_price_data in
          let exit_date := date exit_price_data in
          let price_change := (exit_price - entry_price)%Q in
          let pips := (price_change * inject_Z 1000)%Q in
          let pct_return := ((exit_price - entry_price) / entry_price * inject_Z 100)%Q in
          Some (mk_aligned cot_date entry_date exit_date entry_price exit_price
                  cot_net pips pct_return price_change)
      end
  end.

(** The loop [for i in range(len(cot_df) - 1)], appending each aligned row. *)
Fixpoint align_loop (price_df : list price_row) (cots : list cot_row) : list aligned_row :=
  match cots with
  | [] => []
  | c :: cs =>
      match align_one price_df c with
      | Some r => r :: align_loop price_df cs
      | None => align_loop price_df cs
      end
  end.

Definition align_cot_with_prices (self : Backtester) : option (list aligned_row) :=
  match bt_price_data self, bt_cot_data self with
  | Some price_df, Some cot_df =>
      (* range(len(cot_df) - 1): every row but the last one *)
      match align_loop price_df (removelast cot_df) with
      | [] => None                      (* "No data aligned" *)
      | aligned_data => Some aligned_data
      end
  | _, _ => None                        (* "Missing data for alignment" *)
  end.

(** ** [Backtester.backtest_threshold] (lines 294-332) *)

(** The running columns of lines 318-330, [cumsum] threaded as [cum]. *)
Fixpoint trade_ledger (capital position_size cum : Q) (spread_pips : Q)
    (trades : list aligned_row) : list sim_trade :=
  match trades with
  | [] => []
  | r :: rs =>
      let net_pips := (ar_pips r - spread_pips)%Q in
      let trade_profit := (net_pips * inject_Z 10 * position_size)%Q in
      let cum' := (cum + trade_profit)%Q in
      mk_sim r 1 net_pips trade_profit cum' (capital + cum')%Q (Qltb 0 net_pips)
        :: trade_ledger capital position_size cum' spread_pips rs
  end.

(** [aligned_df[aligned_df['signal'] == 1]] with [signal = commercial_net < threshold]. *)
Definition select_signals (threshold : Z) (aligned : list aligned_row) : list aligned_row :=
  filter (fun r => ar_commercial_net r <? threshold) aligned.

Definition spread_pips : Q := inject_Z 3.
Definition stop_loss_pips : Q := inject_Z 50.

Definition position_size_of (capital risk_per_trade : Q) : Q :=
  (capital * risk_per_trade / (stop_loss_pips * inject_Z 10))%Q.

Definition backtest_threshold (self : Backtester) (threshold : Z) (capital risk_per_trade : Q)
    : option (list sim_trade) :=
  match align_cot_with_prices self with
  | None => None
  | Some [] => None
  | Some aligned_df =>
      match select_signals threshold aligned_df with
      | [] => None                      (* "No signals for threshold" *)
      | trades_df =>
          let position_size := position_size_of capital risk_per_trade in
          Some (trade_ledger capital position_size 0 spread_pips trades_df)
      end
  end.

(** The default arguments [capital=10000, risk_per_trade=0.01]. *)
Definition backtest_threshold_default (self : Backtester) (threshold : Z) : option (list sim_trade) :=
  backtest_threshold self threshold (inject_Z 10000) (1 # 100).

(** ** Performance analysis: [analyze_thresholds], [get_strategy_stats], [generate_report] *)

(** [round(x, 2)]: round half to even at two decimals. *)
Definition round_half_even (y : Q) : Z :=
  let f := Qfloor y in
  let r := (y - inject_Z f)%Q in
  if Qltb r (1 # 2) then f
  else if Qltb (1 # 2) r then f + 1
  else if Z.even f then f else f + 1.

Definition round2 (x : Q) : Q := Qmake (round_half_even (x * inject_Z 100)) 100.

Definition sumQ (l : list Q) : Q := fold_right Qplus 0%Q l.

(** [pips[pips > 0]] and [pips[pips < 0]]. *)
Definition pos_pips (pips : list Q) : list Q := filter (fun p => Qltb 0 p) pips.
Definition neg_pips (pips : list Q) : list Q := filter (fun p => Qltb p 0) pips.

Definition net_pips_of (trades : list sim_trade) : list Q := map tr_net_pips trades.

(** Lines 356-358 and 376 of [analyze_thresholds]. *)
Definition profit_factor_analyze (trades : list sim_trade) : Q :=
  let pips := net_pips_of trades in
  let winning_pips := match pos_pips pips with [] => 0%Q | ps => sumQ ps end in
  let losing_pips := match neg_pips pips with [] => 1%Q | ns => Qabs (sumQ ns) end in
  let profit_factor := if Qltb 0 losing_pips then (winning_pips / losing_pips)%Q else 0%Q in
  round2 profit_factor.

(** Line 424 of [get_strategy_stats]. *)
Definition profit_factor_stats (trades : list sim_trade) : Q :=
  let pips := net_pips_of trades in
  if negb (Qeq_bool (sumQ (neg_pips pips)) 0)
  then round2 (Qabs (sumQ (pos_pips pips) / sumQ (neg_pips pips)))
  else 0%Q.

(** The [profit_factor] entry of [get_strategy_stats(threshold)]. *)
Definition get_strategy_stats_profit_factor (self : Backtester) (threshold : Z) : option Q :=
  match backtest_threshold_default self threshold with
  | None => None
  | Some [] => None
  | Some trades_df => Some (profit_factor_stats trades_df)
  end.

(** The columns of a row of the table built by [analyze_thresholds] that
    [generate_report] ranks on: [threshold], [trades] and [profit_factor]. *)
Record analysis_row := mk_analysis {
  an_threshold : Z;
  an_trades : nat;
  an_profit_factor : Q
}.

Definition thresholds : list Z := [-70000; -60000; -50000; -40000; -30000; -20000; -10000].

(** One iteration of the loop of lines 343-378. *)
Definition analyze_one (self : Backtester) (threshold : Z) : list analysis_row :=
  match backtest_threshold_default self threshold with
  | Some trades_df =>
      if (5 <? List.length trades_df)%nat
      then [mk_analysis threshold (List.length trades_df) (profit_factor_analyze trades_df)]
      else []
  | None => []
  end.

Definition analyze_thresholds (self : Backtester) : list analysis_row :=
  match bt_price_data self, bt_cot_data self with
  | Some _, Some _ => flat_map (analyze_one self) thresholds
  | _, _ => []
  end.



(** ** [DataEngine] ([src/data_engine.py]) *)

(** A daily row of [DataEngine.price_data], indexed by its date. *)
Record ohlc_row := mk_ohlc {
  o_date : Z;
  o_open : Q;
  o_high : Q;
  o_low : Q;
  o_close : Q
}.

(** A row of [merged_data] (lines 120-131). *)
Record merged_row := mk_merged {
  m_cot_date : Z;
  m_commercial_net : Z;
  m_entry_date : Z;
  m_entry_price : Q;
  m_exit_date : Z;
  m_exit_price : Q;
  m_week_high : Q;
  m_week_low : Q;
  m_pips_change : Q;
  m_percent_change : Q
}.

Record DataEngine := mk_engine {
  de_cot_data : option (list cot_row);
  de_price_data : option (list ohlc_row)
}.

Definition Qmax' (x y : Q) : Q := if Qle_bool x y then y else x.
Definition Qmin' (x y : Q) : Q := if Qle_bool x y then x else y.

(** [price_data.loc[trade_start:trade_end]]: label slicing of a sorted
    date index keeps the rows with [trade_start <= date <= trade_end]. *)
Definition loc_slice (start stop : Z) (ps : list ohlc_row) : list ohlc_row :=
  filter (fun p => (start <=? o_date p) && (o_date p <=? stop)) ps.

(** Loop body of [merge_data], lines 100-131. *)
Definition merge_one (price_data : list ohlc_row) (c : cot_row) : option merged_row :=
  let cot_date := cot_date c in
  let commercial_net := commercial_net c in
  let trade_start := cot_date + 3 in
  let trade_end := trade_start + 5 in
  let week_prices := loc_slice trade_start trade_end price_data in
  match week_prices with
  | [] => None
  | w0 :: ws =>
      let entry_price := o_open w0 in
      let exit_price := o_close (last week_prices w0) in
      let week_high := fold_left Qmax' (map o_high ws) (o_high w0) in
      let week_low := fold_left Qmin' (map o_low ws) (o_low w0) in
      let pips_change := ((exit_price - entry_price) * inject_Z 10000)%Q in
      Some (mk_merged cot_date commercial_net trade_start entry_price trade_end exit_price
              week_high week_low pips_change ((exit_price / entry_price - 1) * inject_Z 100)%Q)
  end.

Fixpoint merge_loop (price_data : list ohlc_row) (cots : list cot_row) : list merged_row :=
  match cots with
  | [] => []
  | c :: cs =>
      match merge_one price_data c with
      | Some r => r :: merge_loop price_data cs
      | None => merge_loop price_data cs
      end
  end.

(** [merge_data()]: [None] for [return False], else the [merged_data] table. *)
Definition merge_data (self : DataEngine) : option (list merged_row) :=
  match de_cot_data self, de_price_data self with
  | Some cots, Some ps => Some (merge_loop ps cots)
  | _, _ => None
  end.

(** [SimpleBacktester.analyze_thresholds], line 21: [data[data['commercial_net'] < threshold]]. *)
Definition simple_buy_signals (threshold : Z) (data : list merged_row) : list merged_row :=
  filter (fun r => m_commercial_net r <? threshold) data.

(** [drop_duplicates('cot_date')]: keep the first row of each date. *)
Fixpoint drop_duplicates_from (seen : list Z) (l : list cot_row) : list cot_row :=
  match l with
  | [] => []
  | r :: rs =>
      if existsb (Z.eqb (cot_date r)) seen then drop_duplicates_from seen rs
      else r :: drop_duplicates_from (cot_date r :: seen) rs
  end.

Definition drop_duplicates (l : list cot_row) : list cot_row := drop_duplicates_from [] l.

(** Lines 48-54 of [load_cot_data]: [dfs] are the per-file tables kept by the
    loop; [None] stands for [return False]. *)
Definition load_cot_data (sort_values : forall A : Type, (A -> Z) -> list A -> list A)
    (dfs : list (list cot_row)) : option (list cot_row) :=
  match dfs with
  | [] => None
  | _ => Some (drop_duplicates (sort_values cot_row cot_date (List.concat dfs)))
  end.

(** ** [Backtester.load_price_data_from_file] and [_manual_csv_parse] (lines 25-212) *)

(** A cell of a DataFrame produced by [pd.read_csv]: a string (object
    column), a number, a datetime, or a missing value. *)
Inductive cell :=
| CStr (s : string)
| CNum (q : Q)
| CDate (d : Z)
| CNA.

Record column := mk_column { col_name : string; col_cells : list cell }.

(** A DataFrame as its list of columns, left to right; column names are their
    UTF-8 bytes. *)
Definition frame := list column.

Definition nrows (df : frame) : nat :=
  match df with [] => 0%nat | c :: _ => List.length (col_cells c) end.

(** String helpers: [str.lower], [str.strip], [in], [str.replace(',', '')]. *)
Definition lower_char (c : ascii) : ascii :=
  let n := nat_of_ascii c in
  if (65 <=? n)%nat && (n <=? 90)%nat then ascii_of_nat (n + 32) else c.

Definition lower (s : string) : string :=
  string_of_list_ascii (map lower_char (list_ascii_of_string s)).

Fixpoint drop_while (p : ascii -> bool) (l : list ascii) : list ascii :=
  match l with
  | [] => []
  | c :: l' => if p c then drop_while p l' else l
  end.

Definition strip_by (p : ascii -> bool) (s : string) : string :=
  string_of_list_ascii (rev (drop_while p (rev (drop_while p (list_ascii_of_string s))))).

Definition is_space (c : ascii) : bool :=
  let n := nat_of_ascii c in (n =? 32)%nat || ((9 <=? n)%nat && (n <=? 13)%nat).

Definition strip (s : string) : string := strip_by is_space s.

Definition contains (sub s : string) : bool :=
  match index 0 sub s with Some _ => true | None => false end.

Definition remove_char (c : ascii) (s : string) : string :=
  string_of_list_ascii (filter (fun d => negb (Ascii.eqb c d)) (list_ascii_of_string s)).

(** [str.replace(r'[^\x00-\x7F]+', '', regex=True)] on the UTF-8 bytes. *)
Definition remove_non_ascii (s : string) : string :=
  string_of_list_ascii (filter (fun d => (nat_of_ascii d <? 128)%nat) (list_ascii_of_string s)).

Definition clean_name (s : string) : string := remove_non_ascii (strip s).

Fixpoint get_column (name : string) (df : frame) : list cell :=
  match df with
  | [] => []
  | c :: cs => if String.eqb (col_name c) name then col_cells c else get_column name cs
  end.

(** [df[name] = cells]: replaces an existing column, else appends one. *)
Definition set_column (name : string) (cells : list cell) (df : frame) : frame :=
  if existsb (fun c => String.eqb (col_name c) name) df
  then map (fun c => if String.eqb (col_name c) name then mk_column name cells else c) df
  else df ++ [mk_column name cells].

Definition is_na (c : cell) : bool := match c with CNA => true | _ => false end.
Definition is_str (c : cell) : bool := match c with CStr _ => true | _ => false end.

Definition date_keywords : list string := ["date"; "time"; "day"; "timestamp"]%string.
Definition price_keywords : list string := ["price"; "close"; "last"; "value"; "rate"]%string.
Definition date_marks : list string := ["/"; "-"; "202"; "201"]%string.

(** [_find_date_column]; the outer [None] is the [IndexError] raised by
    [dropna().iloc[0]] on an all-missing first column. *)
Definition _find_date_column (df : frame) : option (option string) :=
  match find (fun c => existsb (fun x => contains x (lower (col_name c))) date_keywords) df with
  | Some c => Some (Some (col_name c))
  | None =>
      match df with
      | [] => None
      | first_col :: _ =>
          let sample :=
            if (0 <? nrows df)%nat
            then match filter (fun c => negb (is_na c)) (col_cells first_col) with
                 | [] => None
                 | s :: _ => Some s
                 end
            else Some (CStr EmptyString) in
          match sample with
          | None => None
          | Some (CStr s) =>
              if existsb (fun x => contains x s) date_marks
              then Some (Some (col_name first_col)) else Some None
          | Some _ => Some None
          end
      end
  end.

Definition _find_price_column (df : frame) (exclude_col : string) : option string :=
  match find (fun c => negb (String.eqb (col_name c) exclude_col)
                       && existsb (fun x => contains x (lower (col_name c))) price_keywords) df with
  | Some c => Some (col_name c)
  | None =>
      match df with
      | _ :: c1 :: _ => if negb (String.eqb (col_name c1) exclude_col) then Some (col_name c1) else None
      | _ => None
      end
  end.

Section PriceLoader.

(** [pd.to_datetime(x, dayfirst=True, errors='coerce')] on one cell ([None] is [NaT])
    and [pd.to_numeric(s, errors='coerce')] on one string ([None] is [NaN]). *)
Variable to_datetime : cell -> option Z.
Variable to_numeric : string -> option Q.
Variable sort_values : forall A : Type, (A -> Z) -> list A -> list A.

Definition date_cell (d : option Z) : cell :=
  match d with Some z => CDate z | None => CNA end.

(** Lines 94-100: [price_df['price']]. *)
Definition price_values (cells : list cell) : list (option Q) :=
  if existsb is_str cells
  then map (fun c => match c with
                     | CStr s => to_numeric (remove_char "," s)
                     | CNum q => Some q
                     | CDate z => Some (inject_Z z)
                     | CNA => None        (* str(nan) = 'nan' *)
                     end) cells
  else map (fun c => match c with
                     | CNum q => Some q
                     | CDate z => Some (inject_Z z)
                     | _ => None
                     end) cells.

(** [dropna(subset=['date', 'price'])]. *)
Fixpoint dropna_rows (rows : list (option Z * option Q)) : list price_row :=
  match rows with
  | [] => []
  | (Some d, Some p) :: rs => mk_price d p :: dropna_rows rs
  | _ :: rs => dropna_rows rs
  end.

(** Lines 72-123, from the DataFrame read by one of the three methods. *)
Definition load_price_from_frame (read : option frame) : option (list price_row) :=
  match read with
  | None => None
  | Some df0 =>
      if (nrows df0 =? 0)%nat then None
      else
        let df := map (fun c => mk_column (clean_name (col_name c)) (col_cells c)) df0 in
        match _find_date_column df with
        | None => None                  (* exception, line 125 *)
        | Some None => None             (* "Could not find date column" *)
        | Some (Some date_col) =>
            let dates := map to_datetime (get_column date_col df) in
            let df' := set_column "date" (map date_cell dates) df in
            match _find_price_column df' date_col with
            | None => None              (* "Could not find price column" *)
            | Some price_col =>
                let prices := price_values (get_column price_col df') in
                let rows := dropna_rows (combine dates prices) in
                Some (sort_values price_row date rows)
            end
        end
  end.

(** Lines 37-70: method 1, else method 2, else the manual parser; [None] for a
    method that raised. *)
Definition read_price_file (method1 method2 : option frame) (method3 : option (option frame))
    : option (option frame) :=
  match method1 with
  | Some df => Some (Some df)
  | None =>
      match method2 with
      | Some df => Some (Some df)
      | None => method3                 (* None: "All methods failed" *)
      end
  end.

Definition load_price_data_from_file (method1 method2 : option frame)
    (method3 : option (option frame)) : option (list price_row) :=
  match read_price_file method1 method2 method3 with
  | None => None
  | Some read => load_price_from_frame read
  end.

(** [_manual_csv_parse]: [parse_date] is the chain of [pd.to_datetime] calls
    of lines 154-164 ([None] is [NaT]); [py_float] is [float(s)], [None] when
    it raises, [Some None] for [nan]. *)
Variable parse_date : string -> option Z.
Variable py_float : string -> option (option Q).

Definition is_quote (c : ascii) : bool := Ascii.eqb c (ascii_of_nat 34) || Ascii.eqb c (ascii_of_nat 39).

(** One row of the loop of lines 144-175. *)
Definition manual_row (row : list string) : option (Z * option Q) :=
  match row with
  | r0 :: r1 :: _ =>
      let date_str := strip_by is_quote (strip r0) in
      let price_str := remove_char "," (strip_by is_quote (strip r1)) in
      let date := parse_date date_str in
      match py_float price_str with
      | None => None                    (* ValueError: continue *)
      | Some price =>
          match date with Some d => Some (d, price) | None => None end
      end
  | _ => None                           (* len(row) < 2 *)
  end.

Fixpoint manual_rows (rows : list (list string)) : list (Z * option Q) :=
  match rows with
  | [] => []
  | r :: rs => match manual_row r with Some x => x :: manual_rows rs | None => manual_rows rs end
  end.

(** The data rows after the header; the frame has columns [date] and [price]. *)
Definition _manual_csv_parse (rows : list (list string)) : option frame :=
  match manual_rows rows with
  | [] => None
  | parsed =>
      let kept := filter (fun x => match snd x with Some _ => true | None => false end) parsed in
      Some [mk_column "date" (map (fun x => CDate (fst x)) kept);
            mk_column "price" (map (fun x => match snd x with Some q => CNum q | None => CNA end) kept)]
  end.

End PriceLoader.

(** ** Auxiliary notions for the statements *)

(** [subseq l1 l2]: [l1] is [l2] with some elements removed, order kept. *)
Inductive subseq {A : Type} : list A -> list A -> Prop :=
| subseq_nil : subseq [] []
| subseq_skip : forall x l1 l2, subseq l1 l2 -> subseq l1 (x :: l2)
| subseq_take : forall x l1 l2, subseq l1 l2 -> subseq (x :: l1) (x :: l2).

(** The rows of an optional table, [] for [None]. *)
Definition rows_of {A : Type} (o : option (list A)) : list A :=
  match o with Some l => l | None => [] end.

(** The number of trades of [backtest_threshold] (0 when it returns [None]). *)
Definition trade_count (self : Backtester) (threshold : Z) : nat :=
  List.length (rows_of (backtest_threshold_default self threshold)).

(** The relation between a COT report [c] and the aligned row [r] promised
    for it: the entry is a price point of least date after [cot_date], the exit
    a price point of least date on or after [cot_date + 7]. *)
Definition aligned_spec (ps : list price_row) (c : cot_row) (r : aligned_row) : Prop :=
  exists e x, In e ps /\ In x ps
    /\ cot_date c < date e /\ (forall p, In p ps -> cot_date c < date p -> date e <= date p)
    /\ cot_date c + 7 <= date x /\ (forall p, In p ps -> cot_date c + 7 <= date p -> date x <= date p)
    /\ r = mk_aligned (cot_date c) (date e) (date x) (price e) (price x) (commercial_net c)
             ((price x - price e) * inject_Z 1000)%Q
             ((price x - price e) / price e * inject_Z 100)%Q
             (price x - price e)%Q.

(** The relation between a COT report [c] and the row [r] that [merge_data]
    builds for it: the week window [cot_date + 3 .. cot_date + 8] holds the
    price rows [w0 :: ws]; the entry and exit dates are the window bounds. *)
Definition merged_spec (ps : list ohlc_row) (c : cot_row) (r : merged_row) : Prop :=
  exists w0 ws, loc_slice (cot_date c + 3) (cot_date c + 3 + 5) ps = w0 :: ws
    /\ m_cot_date r = cot_date c /\ m_commercial_net r = commercial_net c
    /\ m_entry_date r = cot_date c + 3 /\ m_exit_date r = cot_date c + 3 + 5
    /\ m_entry_price r = o_open w0 /\ m_exit_price r = o_close (last (w0 :: ws) w0).

(** ** Concrete data *)

(** Two weekly reports (the second is the last row, never aligned) and two
    daily prices: an aligned trade of [-70] pips with [commercial_net = -80000]. *)
Definition ex_cots : list cot_row := [mk_cot 0 10000 90000 (-80000); mk_cot 7 0 0 0].
Definition ex_prices : list price_row := [mk_price 1 (inject_Z 17); mk_price 7 (1693 # 100)].
Definition ex_state : Backtester := Backtester_init stable_sort (Some ex_cots) (Some ex_prices).
(** A report on day 0 with one daily price on day 4: inside the week window
    of [merge_data], but with no price on or after day 7. *)
Definition ex_engine_cots : list cot_row := [mk_cot 0 10000 70000 (-60000)].
Definition ex_engine_prices : list ohlc_row :=
  [mk_ohlc 4 (inject_Z 17) (inject_Z 17) (inject_Z 17) (inject_Z 17)].
Definition ex_engine : DataEngine := mk_engine (Some ex_engine_cots) (Some ex_engine_prices).

(** Reports in descending date order (the latest first), with prices after both. *)
Definition ex_cots_desc : list cot_row := [mk_cot 14 0 0 (-60000); mk_cot 0 0 0 (-60000)].
Definition ex_prices_late : list price_row := [mk_price 15 (inject_Z 17); mk_price 21 (inject_Z 18)].
(** [n] weekly reports ([commercial_net = -80000]) and a daily price rising
    by 0.01 a day: the first [n - 1] reports align to winning trades of 60 pips. *)
Definition ex_rising_cots (n : nat) : list cot_row :=
  map (fun k => mk_cot (7 * Z.of_nat k) 10000 90000 (-80000)) (seq 0 n).
Definition ex_rising_prices (n : nat) : list price_row :=
  map (fun d => mk_price (Z.of_nat d) (inject_Z 17 + (Z.of_nat d # 100))%Q) (seq 0 (7 * n + 8)).
Definition ex_rising_state (n : nat) : Backtester :=
  Backtester_init stable_sort (Some (ex_rising_cots n)) (Some (ex_rising_prices n)).
(** A price file whose only data row has an unparseable date and price, as
    read by [pd.read_csv] (method 1) and as rows of [csv.reader]. *)
Definition ex_bad_frame : frame :=
  [mk_column "Date" [CStr "foo"]; mk_column "Price" [CStr "bar"]]%string.
Definition ex_bad_rows : list (list string) := [["foo"; "bar"]%string].
(** Two COT files reporting the same date, with different positions. *)
Definition ex_dup_first : cot_row := mk_cot 5 100 0 100.
Definition ex_dup_second : cot_row := mk_cot 5 200 0 200.
Definition ex_dup_files : list (list cot_row) := [[ex_dup_first]; [ex_dup_second]].

(** ** Further methods of [Backtester] and [SimpleBacktester] *)

(** [set_price_data(price_data)] (lines 214-221): the new object and the
    returned flag. *)
Definition set_price_data (sort_values : forall A : Type, (A -> Z) -> list A -> list A)
    (self : Backtester) (price_data : option (list price_row)) : Backtester * bool :=
  match price_data with
  | Some p => (mk_backtester (bt_cot_data self) (Some (sort_values price_row date p)), true)
  | None => (self, false)
  end.

(** [equity.expanding().max()]: the running maximum, current row included. *)
Fixpoint expanding_max_from (m : Q) (l : list Q) : list Q :=
  match l with
  | [] => []
  | x :: xs => let m' := Qmax' m x in m' :: expanding_max_from m' xs
  end.

Definition expanding_max (l : list Q) : list Q :=
  match l with [] => [] | x :: xs => x :: expanding_max_from x xs end.

(** [drawdown = (equity - peak) / peak]. *)
Definition drawdown_series (equity : list Q) : list Q :=
  map (fun ep => ((fst ep - snd ep) / snd ep)%Q) (combine equity (expanding_max equity)).

(** [drawdown.min() * 100]; [None] is the [NaN] of an empty series. *)
Definition max_drawdown_of (equity : list Q) : option Q :=
  match drawdown_series equity with
  | [] => None
  | d :: ds => Some (fold_left Qmin' ds d * inject_Z 100)%Q
  end.

(** The [max_drawdown_pct] entry of [get_strategy_stats(threshold)]
    (lines 392-396 and 425). *)
Definition get_strategy_stats_max_drawdown (self : Backtester) (threshold : Z) : option Q :=
  match backtest_threshold_default self threshold with
  | None => None
  | Some [] => None
  | Some trades_df => option_map round2 (max_drawdown_of (map tr_equity trades_df))
  end.

(** The [final_equity] entry of [get_strategy_stats(threshold)] (line 428). *)
Definition get_strategy_stats_final_equity (self : Backtester) (threshold : Z) : option Q :=
  match backtest_threshold_default self threshold with
  | None => None
  | Some [] => None
  | Some ((tr :: _) as trades_df) => Some (round2 (tr_equity (last trades_df tr)))
  end.

(** The [total_trades], [winning_trades] and [losing_trades] entries of
    [get_strategy_stats(threshold)] (lines 411-413). *)
Definition get_strategy_stats_trade_counts (self : Backtester) (threshold : Z) : option (nat * nat * nat) :=
  match backtest_threshold_default self threshold with
  | None => None
  | Some [] => None
  | Some trades_df =>
      let pips := net_pips_of trades_df in
      Some (List.length trades_df, List.length (pos_pips pips), List.length (neg_pips pips))
  end.

(** [pd.cut(x, bins, labels)] with its default [right=True]: the index of the
    interval [(b_i, b_(i+1)]] holding [x], [None] ([NaN]) outside [(b_0, b_n]]. *)
Fixpoint cut_index (bins : list Z) (x : Z) : option nat :=
  match bins with
  | b0 :: ((b1 :: _) as rest) =>
      if (b0 <? x) && (x <=? b1) then Some 0%nat else option_map S (cut_index rest x)
  | _ => None
  end.

Definition pd_cut (bins : list Z) (labels : list string) (x : Z) : option string :=
  match cut_index bins x with Some i => nth_error labels i | None => None end.

Definition signal_bins : list Z := [-200000; -60000; -40000; -20000; 0; 20000; 40000; 200000].
Definition signal_labels : list string :=
  ["Extreme Short"; "Strong Short"; "Moderate Short"; "Mild Short";
   "Mild Long"; "Moderate Long"; "Strong Long"]%string.

(** [value_counts().sort_index().to_dict()] of a categorical column: one
    entry per category, in category order, counting its non-missing values. *)
Definition value_counts_sorted (labels : list string) (vals : list (option string)) : list (string * nat) :=
  map (fun lab => (lab, List.length (filter (fun v => match v with
                                                      | Some l => String.eqb l lab
                                                      | None => false
                                                      end) vals))) labels.

(** [report['signal_distribution']] of [generate_report] (lines 473-486);
    [None] when the report is one of the two error dicts. *)
Definition generate_report_signal_distribution (self : Backtester) : option (list (string * nat)) :=
  match bt_cot_data self with
  | None | Some [] => None
  | Some cot_df =>
      match bt_price_data self with
      | None | Some [] => None
      | Some _ =>
          Some (value_counts_sorted signal_labels
                  (map (fun c => pd_cut signal_bins signal_labels (commercial_net c)) cot_df))
      end
  end.

(** [Series.mean()] / [np.mean] of a non-empty series. *)
Definition meanQ (l : list Q) : Q := (sumQ l / inject_Z (Z.of_nat (List.length l)))%Q.

(** A row of the table of [SimpleBacktester.analyze_thresholds] (lines 28-34). *)
Record threshold_result := mk_tres {
  tres_threshold : Z;
  tres_trades : nat;
  tres_avg_pips : Q;
  tres_win_rate : Q;
  tres_total_pips : Q
}.

Definition simple_thresholds : list Z := [-70000; -60000; -50000; -40000; -30000; -20000].

(** One iteration of the loop of [SimpleBacktester.analyze_thresholds], lines 19-34. *)
Definition simple_analyze_one (data : list merged_row) (threshold : Z) : list threshold_result :=
  let buy_signals := simple_buy_signals threshold data in
  if (10 <? List.length buy_signals)%nat then
    let avg_pips := meanQ (map m_pips_change buy_signals) in
    let win_rate :=
      (inject_Z (Z.of_nat (List.length (filter (fun r => Qltb 0 (m_pips_change r)) buy_signals)))
       / inject_Z (Z.of_nat (List.length buy_signals)) * inject_Z 100)%Q in
    let total_trades := List.length buy_signals in
    [mk_tres threshold total_trades avg_pips win_rate (avg_pips * inject_Z (Z.of_nat total_trades))%Q]
  else [].

(** [SimpleBacktester.analyze_thresholds()] on [self.data]. *)
Definition simple_analyze_thresholds (data : list merged_row) : list threshold_result :=
  flat_map (simple_analyze_one data) simple_thresholds.

(** [threshold_df['total_pips'].idxmax()] then [.loc]: the first row of
    maximal [total_pips]. *)
Definition idxmax_total_pips (first : threshold_result) (rest : list threshold_result) : threshold_result :=
  fold_left (fun best r => if Qltb (tres_total_pips best) (tres_total_pips r) then r else best)
    rest first.

(** [report['best_threshold']] of [SimpleBacktester.generate_report] (lines 67-90);
    [None] when the report has no such entry. *)
Definition simple_generate_report_best_threshold (data : list merged_row) : option threshold_result :=
  match data with
  | [] => None                            (* {"error": "No data available"} *)
  | _ =>
      match simple_analyze_thresholds data with
      | [] => None
      | r :: rs => Some (idxmax_total_pips r rs)
      end
  end.

(** A row of the table of [SimpleBacktester.analyze_holding_periods] (lines 58-63). *)
Record holding_result := mk_hres {
  hres_hold_days : Z;
  hres_avg_pips : Q;
  hres_win_rate : Q;
  hres_trades : nat
}.

Definition holding_days : list Z := [1; 2; 3; 4; 5].

(** The inner loop of lines 48-55 over [self.data.iterrows()]. *)
Fixpoint day_pips_of (threshold days : Z) (rows : list merged_row) : list Q :=
  match rows with
  | [] => []
  | row :: rs =>
      if m_commercial_net row <? threshold then
        let weekly_pips := m_pips_change row in
        let daily_avg := (weekly_pips / inject_Z 5)%Q in
        (daily_avg * inject_Z days)%Q :: day_pips_of threshold days rs
      else day_pips_of threshold days rs
  end.

(** One iteration of the outer loop, lines 45-63. *)
Definition simple_holding_one (data : list merged_row) (threshold days : Z) : list holding_result :=
  match day_pips_of threshold days data with
  | [] => []
  | day_pips =>
      [mk_hres days (meanQ day_pips)
         (inject_Z (Z.of_nat (List.length (filter (fun p => Qltb 0 p) day_pips)))
          / inject_Z (Z.of_nat (List.length day_pips)) * inject_Z 100)%Q
         (List.length day_pips)]
  end.

(** [SimpleBacktester.analyze_holding_periods(threshold)] on [self.data]. *)
Definition simple_analyze_holding_periods (data : list merged_row) (threshold : Z) : list holding_result :=
  flat_map (simple_holding_one data threshold) holding_days.

(** [n] merged weeks with [commercial_net = -80000] and [pips_change] of
    [60] on every third week, else [-10]. *)
Definition ex_merged (n : nat) : list merged_row :=
  map (fun k => mk_merged (7 * Z.of_nat k) (-80000) (7 * Z.of_nat k + 3) (inject_Z 17)
                  (7 * Z.of_nat k + 8) (inject_Z 17)
                  (inject_Z 17) (inject_Z 17)
                  (if (k mod 3 =? 0)%nat then inject_Z 60 else inject_Z (-10)) 0) (seq 0 n).

(** A price file read with a [Date] column of datetimes out of order and a
    [Close] column; [pd.to_datetime] leaves a datetime cell as it is. *)
Definition ex_price_frame : frame :=
  [mk_column "Date" [CDate 3; CDate 1]; mk_column "Close" [CNum (inject_Z 18); CNum (inject_Z 17)]]%string.
Definition ex_to_datetime (c : cell) : option Z := match c with CDate d => Some d | _ => None end.

(** The ledger of six winning trades simulated on [ex_rising_state 7]. *)
Definition ex_ledger : list sim_trade :=
  rows_of (backtest_threshold (ex_rising_state 7) (-50000) (inject_Z 10000) (1 # 100)).

(** ** The default sort of [DataFrame.sort_values] *)

(** [sort_values('cot_date')] calls [nargsort(kind='quicksort')], which
    sorts the [datetime64] values with numpy's [argsort(kind='quicksort')]:
    the function [aquicksort_<npy::datetime_tag>] of [npysort/quicksort.cpp]
    (introsort: median-of-3 partitions above [SMALL_QUICKSORT = 16], insertion
    sort below, [aheapsort_] past the depth limit), run on [tosort = 0 .. n-1];
    the frame is then [take]n in that order.  Dates are never [NaT] here, so
    [datetime_tag::less] is [<].  The pointers of the C code are indices into
    [tosort]; each loop runs on [fuel] and gives [None] only if the fuel is
    spent before the C loop ends. *)
Definition np_less (a b : Z) : bool := a <? b.

Definition arr_get (ts : list nat) (i : Z) : nat := nth (Z.to_nat i) ts 0%nat.
Definition arr_set (ts : list nat) (i : Z) (x : nat) : list nat :=
  firstn (Z.to_nat i) ts ++ x :: skipn (S (Z.to_nat i)) ts.
(** [INTP_SWAP( *a, *b)]. *)
Definition arr_swap (ts : list nat) (i j : Z) : list nat :=
  let a := arr_get ts i in let b := arr_get ts j in arr_set (arr_set ts j a) i b.
(** [v[*p]]. *)
Definition val_at (v : list Z) (ts : list nat) (i : Z) : Z := nth (arr_get ts i) v 0.

(** [do { ++pi; } while (less(v[*pi], vp));] *)
Fixpoint scan_up (fuel : nat) (v : list Z) (ts : list nat) (pi vp : Z) : option Z :=
  match fuel with
  | O => None
  | S f => let pi' := pi + 1 in
           if np_less (val_at v ts pi') vp then scan_up f v ts pi' vp else Some pi'
  end.

(** [do { --pj; } while (less(vp, v[*pj]));] *)
Fixpoint scan_down (fuel : nat) (v : list Z) (ts : list nat) (pj vp : Z) : option Z :=
  match fuel with
  | O => None
  | S f => let pj' := pj - 1 in
           if np_less vp (val_at v ts pj') then scan_down f v ts pj' vp else Some pj'
  end.

(** [for (;;) { scan up; scan down; if (pi >= pj) break; INTP_SWAP( *pi, *pj); }] *)
Fixpoint partition_loop (fuel : nat) (v : list Z) (ts : list nat) (pi pj vp : Z) : option (list nat * Z) :=
  match fuel with
  | O => None
  | S f =>
      match scan_up fuel v ts pi vp with
      | None => None
      | Some pi' =>
          match scan_down fuel v ts pj vp with
          | None => None
          | Some pj' => if pj' <=? pi' then Some (ts, pi')
                        else partition_loop f v (arr_swap ts pi' pj') pi' pj' vp
          end
      end
  end.

(** The local variables [tosort], [pl], [pr], the two stacks and [cdepth]. *)
Record qs_state := mk_qs {
  qs_ts : list nat;
  qs_pl : Z;
  qs_pr : Z;
  qs_stack : list (Z * Z);
  qs_depth : list Z;
  qs_cdepth : Z
}.

(** One iteration of [while ((pr - pl) > SMALL_QUICKSORT)]: the median of
    three, the partition, and the push of the larger part. *)
Definition partition_step (fuel : nat) (v : list Z) (st : qs_state) : option qs_state :=
  let pl := qs_pl st in
  let pr := qs_pr st in
  let ts := qs_ts st in
  let pm := pl + Z.shiftr (pr - pl) 1 in
  let ts := if np_less (val_at v ts pm) (val_at v ts pl) then arr_swap ts pm pl else ts in
  let ts := if np_less (val_at v ts pr) (val_at v ts pm) then arr_swap ts pr pm else ts in
  let ts := if np_less (val_at v ts pm) (val_at v ts pl) then arr_swap ts pm pl else ts in
  let vp := val_at v ts pm in
  let pi := pl in
  let pj := pr - 1 in
  let ts := arr_swap ts pm pj in
  match partition_loop fuel v ts pi pj vp with
  | None => None
  | Some (ts, pi) =>
      let pk := pr - 1 in
      let ts := arr_swap ts pi pk in
      let cdepth := qs_cdepth st - 1 in
      if pi - pl <? pr - pi
      then Some (mk_qs ts pl (pi - 1) ((pi + 1, pr) :: qs_stack st) (cdepth :: qs_depth st) cdepth)
      else Some (mk_qs ts (pi + 1) pr ((pl, pi - 1) :: qs_stack st) (cdepth :: qs_depth st) cdepth)
  end.

Fixpoint partition_while (fuel : nat) (v : list Z) (st : qs_state) : option qs_state :=
  match fuel with
  | O => None
  | S f =>
      if 16 <? qs_pr st - qs_pl st then
        match partition_step fuel v st with
        | None => None
        | Some st' => partition_while f v st'
        end
      else Some st
  end.

(** [while (pj > pl && less(vp, v[*pk])) { *pj-- = *pk--; }] *)
Fixpoint insertion_shift (fuel : nat) (v : list Z) (ts : list nat) (pl pj pk vp : Z) : option (list nat * Z) :=
  match fuel with
  | O => None
  | S f =>
      if pl <? pj then
        if np_less vp (val_at v ts pk)
        then insertion_shift f v (arr_set ts pj (arr_get ts pk)) pl (pj - 1) (pk - 1) vp
        else Some (ts, pj)
      else Some (ts, pj)
  end.

(** [for (pi = pl + 1; pi <= pr; ++pi) { ... *pj = vi; }] *)
Fixpoint insertion_sort (fuel : nat) (v : list Z) (ts : list nat) (pl pr pi : Z) : option (list nat) :=
  match fuel with
  | O => None
  | S f =>
      if pi <=? pr then
        let vi := arr_get ts pi in
        let vp := nth vi v 0 in
        match insertion_shift fuel v ts pl pi (pi - 1) vp with
        | None => None
        | Some (ts', pj) => insertion_sort f v (arr_set ts' pj vi) pl pr (pi + 1)
        end
      else Some ts
  end.

(** [aheapsort_(vv, pl, n)] with [a = pl - 1], indexed from 1. *)
Definition heap_get (ts : list nat) (base i : Z) : nat := arr_get ts (base + i - 1).
Definition heap_set (ts : list nat) (base i : Z) (x : nat) : list nat := arr_set ts (base + i - 1) x.

(** [for (; j <= n;) { ... }  a[i] = tmp;] *)
Fixpoint heap_sift (fuel : nat) (v : list Z) (ts : list nat) (base n i j : Z) (tmp : nat) : option (list nat) :=
  match fuel with
  | O => None
  | S f =>
      if j <=? n then
        let j := if j <? n then
                   if np_less (nth (heap_get ts base j) v 0) (nth (heap_get ts base (j + 1)) v 0)
                   then j + 1 else j
                 else j in
        if np_less (nth tmp v 0) (nth (heap_get ts base j) v 0)
        then heap_sift f v (heap_set ts base i (heap_get ts base j)) base n j (j + j) tmp
        else Some (heap_set ts base i tmp)
      else Some (heap_set ts base i tmp)
  end.

(** [for (l = n >> 1; l > 0; --l) { tmp = a[l]; sift from i = l, j = l << 1 }] *)
Fixpoint heap_build (fuel : nat) (v : list Z) (ts : list nat) (base n l : Z) : option (list nat) :=
  match fuel with
  | O => None
  | S f =>
      if 0 <? l then
        match heap_sift fuel v ts base n l (Z.shiftl l 1) (heap_get ts base l) with
        | None => None
        | Some ts' => heap_build f v ts' base n (l - 1)
        end
      else Some ts
  end.

(** [for (; n > 1;) { tmp = a[n]; a[n] = a[1]; n -= 1; sift from i = 1, j = 2 }] *)
Fixpoint heap_pop (fuel : nat) (v : list Z) (ts : list nat) (base n : Z) : option (list nat) :=
  match fuel with
  | O => None
  | S f =>
      if 1 <? n then
        let tmp := heap_get ts base n in
        let ts := heap_set ts base n (heap_get ts base 1) in
        let n := n - 1 in
        match heap_sift fuel v ts base n 1 2 tmp with
        | None => None
        | Some ts' => heap_pop f v ts' base n
        end
      else Some ts
  end.

Definition aheapsort (fuel : nat) (v : list Z) (ts : list nat) (base n : Z) : option (list nat) :=
  match heap_build fuel v ts base n (Z.shiftr n 1) with
  | None => None
  | Some ts' => heap_pop fuel v ts' base n
  end.

(** The outer [for (;;)] loop, with [stack_pop]. *)
Fixpoint aquicksort_loop (fuel : nat) (v : list Z) (st : qs_state) : option (list nat) :=
  match fuel with
  | O => None
  | S f =>
      let sorted :=
        if qs_cdepth st <? 0 then
          match aheapsort fuel v (qs_ts st) (qs_pl st) (qs_pr st - qs_pl st + 1) with
          | None => None
          | Some ts => Some (mk_qs ts (qs_pl st) (qs_pr st) (qs_stack st) (qs_depth st) (qs_cdepth st))
          end
        else
          match partition_while fuel v st with
          | None => None
          | Some st' =>
              match insertion_sort fuel v (qs_ts st') (qs_pl st') (qs_pr st') (qs_pl st' + 1) with
              | None => None
              | Some ts => Some (mk_qs ts (qs_pl st') (qs_pr st') (qs_stack st') (qs_depth st') (qs_cdepth st'))
              end
          end in
      match sorted with
      | None => None
      | Some st' =>
          match qs_stack st', qs_depth st' with
          | [], _ => Some (qs_ts st')
          | (pl, pr) :: stack, cdepth :: depth => aquicksort_loop f v (mk_qs (qs_ts st') pl pr stack depth cdepth)
          | _ :: _, [] => None            (* the two stacks are pushed together *)
          end
      end
  end.

(** [aquicksort_(v, tosort, num)] on [tosort = 0 .. num-1];
    [cdepth = npy_get_msb(num) * 2]. *)
Definition np_aquicksort (fuel : nat) (v : list Z) : option (list nat) :=
  let num := Z.of_nat (List.length v) in
  aquicksort_loop fuel v (mk_qs (seq 0 (List.length v)) 0 (num - 1) [] [] (Z.log2 num * 2)).

(** [df.sort_values(key)]: [df.take(indexer)] of the numpy argsort of the key. *)
Definition pandas_sort_values (fuel : nat) (A : Type) (k : A -> Z) (l : list A) : option (list A) :=
  match np_aquicksort fuel (map k l) with
  | None => None
  | Some indexer => Some (flat_map (fun i => match nth_error l i with Some x => [x] | None => [] end) indexer)
  end.

(** Two yearly COT files that overlap: 17 weekly reports, then a file
    repeating the report of day 7 with other positions. *)
Definition ex_year_file : list cot_row := map (fun k => mk_cot (7 * Z.of_nat k) 100 0 100) (seq 0 17).
Definition ex_overlap_file : list cot_row := [mk_cot 7 200 0 200].
Definition ex_overlap_files : list (list cot_row) := [ex_year_file; ex_overlap_file].

(** ** General lemmas *)

Create HintDb backtest.
#[local] Hint Constructors subseq : backtest.

Lemma subseq_refl {A : Type} (l : list A) : subseq l l.
Proof. induction l; auto with backtest. Qed.

Lemma subseq_length {A : Type} (l1 l2 : list A) : subseq l1 l2 -> (List.length l1 <= List.length l2)%nat.
Proof. induction 1; simpl; lia. Qed.

Lemma subseq_in {A : Type} (l1 l2 : list A) x : subseq l1 l2 -> In x l1 -> In x l2.
Proof. induction 1; simpl; intuition. Qed.

Lemma filter_subseq {A : Type} (f g : A -> bool) (l : list A) :
  (forall x, f x = true -> g x = true) -> subseq (filter f l) (filter g l).
Proof.
  intros Hfg. induction l as [|a l IH]; simpl; [constructor|].
  destruct (f a) eqn:Ef.
  - rewrite (Hfg a Ef). now constructor.
  - destruct (g a); auto with backtest.
Qed.

Lemma insert_by_perm {A : Type} cmp (k : A -> Z) x l : Permutation (insert_by cmp k x l) (x :: l).
Proof.
  induction l as [|y l IH]; simpl; [auto|].
  destruct (cmp (k x) (k y)); [auto|].
  eapply perm_trans; [apply perm_skip, IH | apply perm_swap].
Qed.

Section InsertionSort.
Variable cmp : Z -> Z -> bool.
Hypothesis cmp_true : forall a b, cmp a b = true -> a <= b.
Hypothesis cmp_false : forall a b, cmp a b = false -> b <= a.

Lemma insert_by_hdrel {A : Type} (k : A -> Z) x y l :
  HdRel (fun a b => k a <= k b) y l -> k y <= k x ->
  HdRel (fun a b => k a <= k b) y (insert_by cmp k x l).
Proof.
  intros H Hyx. destruct l as [|z l]; simpl; [auto|].
  destruct (cmp (k x) (k z)); auto. inversion H; auto.
Qed.

Lemma insert_by_sorted {A : Type} (k : A -> Z) x l :
  Sorted (fun a b => k a <= k b) l -> Sorted (fun a b => k a <= k b) (insert_by cmp k x l).
Proof.
  induction 1 as [|y l Hl IH Hhd]; simpl; [auto|].
  destruct (cmp (k x) (k y)) eqn:E.
  - constructor; [constructor; auto | constructor; apply cmp_true; exact E].
  - constructor; [exact IH | apply insert_by_hdrel; auto].
Qed.

Lemma isort_by_contract {A : Type} (k : A -> Z) l :
  Permutation (isort_by cmp k l) l /\ Sorted (fun a b => k a <= k b) (isort_by cmp k l).
Proof.
  unfold isort_by. induction l as [|x l [IHp IHs]]; simpl; [auto|].
  split.
  - eapply perm_trans; [apply insert_by_perm | now apply perm_skip].
  - now apply insert_by_sorted.
Qed.

End InsertionSort.

Lemma stable_sort_contract : sort_contract stable_sort.
Proof.
  intros A k l. apply isort_by_contract;
    intros a b H; [apply Z.leb_le in H | apply Z.leb_gt in H]; lia.
Qed.


(** [find] on a list sorted by [k] returns a row of least key among the
    rows satisfying the mask. *)
Lemma find_sorted_least {A : Type} (k : A -> Z) (f : A -> bool) l e p :
  Sorted (fun a b => k a <= k b) l -> find f l = Some e -> In p l -> f p = true -> k e <= k p.
Proof.
  intros Hs. apply Sorted_StronglySorted in Hs; [|intros a b c; lia].
  induction Hs as [|a l Hs IH Hall]; simpl; [discriminate|].
  intros Hf Hp Hfp. destruct (f a) eqn:Ea.
  - injection Hf as <-. destruct Hp as [<-|Hp]; [lia|].
    rewrite Forall_forall in Hall. exact (Hall p Hp).
  - destruct Hp as [<-|Hp]; [congruence|]. exact (IH Hf Hp Hfp).
Qed.

Lemma trade_ledger_length capital ps cum spread l :
  List.length (trade_ledger capital ps cum spread l) = List.length l.
Proof. revert cum. induction l; intros; simpl; auto. Qed.

Lemma trade_ledger_rows capital ps cum spread l :
  map tr_row (trade_ledger capital ps cum spread l) = l.
Proof. revert cum. induction l; intros; simpl; f_equal; auto. Qed.

Lemma trade_ledger_columns capital ps cum spread l :
  Forall (fun tr => tr_net_pips tr = (ar_pips (tr_row tr) - spread)%Q
                    /\ tr_trade_profit tr = (tr_net_pips tr * inject_Z 10 * ps)%Q
                    /\ tr_win tr = Qltb 0 (tr_net_pips tr))
    (trade_ledger capital ps cum spread l).
Proof. revert cum. induction l; intros; simpl; constructor; auto. Qed.

Lemma backtest_threshold_inv self threshold capital risk trades :
  backtest_threshold self threshold capital risk = Some trades ->
  exists aligned, align_cot_with_prices self = Some aligned
    /\ select_signals threshold aligned <> []
    /\ trades = trade_ledger capital (position_size_of capital risk) 0 spread_pips
                  (select_signals threshold aligned).
Proof.
  unfold backtest_threshold.
  destruct (align_cot_with_prices self) as [[|a l]|]; try discriminate.
  destruct (select_signals threshold (a :: l)) eqn:E; [discriminate|].
  intros H; injection H as <-. exists (a :: l). rewrite E. repeat split; congruence.
Qed.

Lemma backtest_threshold_selected self threshold capital risk aligned :
  align_cot_with_prices self = Some aligned ->
  select_signals threshold aligned <> [] ->
  backtest_threshold self threshold capital risk
  = Some (trade_ledger capital (position_size_of capital risk) 0 spread_pips
            (select_signals threshold aligned)).
Proof.
  intros Ha Hs. unfold backtest_threshold. rewrite Ha.
  destruct aligned as [|a l]; [simpl in Hs; congruence|].
  destruct (select_signals threshold (a :: l)); congruence.
Qed.

Lemma trade_count_select self threshold :
  trade_count self threshold
  = List.length (select_signals threshold (rows_of (align_cot_with_prices self))).
Proof.
  unfold trade_count, backtest_threshold_default.
  destruct (align_cot_with_prices self) as [aligned|] eqn:Ha; [|unfold backtest_threshold; now rewrite Ha].
  simpl. destruct (select_signals threshold aligned) eqn:Es.
  - destruct (backtest_threshold self threshold (inject_Z 10000) (1 # 100)) as [trades|] eqn:Eb;
      [|reflexivity].
    apply backtest_threshold_inv in Eb as (a' & Ha' & Hne & _). congruence.
  - rewrite (backtest_threshold_selected _ _ _ _ aligned Ha) by congruence.
    simpl. now rewrite trade_ledger_length, Es.
Qed.

(** ** Claims on the strategy simulator [backtest_threshold] *)

(** C1 (as amended): for every trade of [backtest_threshold], [net_pips = pips - 3]
    and [trade_profit = net_pips * 10 * position_size]; the ledger is the
    selected aligned rows in order, and no stop-loss cap is applied to a loss. *)
Theorem backtest_threshold_net_pips_uncapped self threshold capital risk trades :
  backtest_threshold self threshold capital risk = Some trades ->
  exists aligned, align_cot_with_prices self = Some aligned
    /\ map tr_row trades = select_signals threshold aligned
    /\ Forall (fun tr => tr_net_pips tr = (ar_pips (tr_row tr) - spread_pips)%Q
                         /\ tr_trade_profit tr
                            = (tr_net_pips tr * inject_Z 10 * position_size_of capital risk)%Q)
         trades.
Proof.
  intros H. apply backtest_threshold_inv in H as (aligned & Ha & _ & ->).
  exists aligned. split; [exact Ha|]. split; [apply trade_ledger_rows|].
  eapply Forall_impl; [|apply trade_ledger_columns]. simpl. tauto.
Qed.

Lemma backtest_threshold_net_pips_uncapped_witness :
  backtest_threshold ex_state (-50000) (inject_Z 10000) (1 # 100)
    = Some (rows_of (backtest_threshold ex_state (-50000) (inject_Z 10000) (1 # 100)))
  /\ exists aligned, align_cot_with_prices ex_state = Some aligned
    /\ map tr_row (rows_of (backtest_threshold ex_state (-50000) (inject_Z 10000) (1 # 100)))
       = select_signals (-50000) aligned
    /\ Forall (fun tr => tr_net_pips tr = (ar_pips (tr_row tr) - spread_pips)%Q
                         /\ tr_trade_profit tr
                            = (tr_net_pips tr * inject_Z 10 * position_size_of (inject_Z 10000) (1 # 100))%Q)
         (rows_of (backtest_threshold ex_state (-50000) (inject_Z 10000) (1 # 100))).
Proof.
  split; [vm_compute; reflexivity|].
  apply (backtest_threshold_net_pips_uncapped ex_state (-50000) (inject_Z 10000) (1 # 100)).
  vm_compute. reflexivity.
Defined.

(** C1 (counterexample): with [pips = -70] the simulated trade keeps
    [net_pips = -73] and its profit is not the one of a [-50] pip capped loss. *)
Lemma backtest_threshold_loss_exceeds_stop :
  match backtest_threshold ex_state (-50000) (inject_Z 10000) (1 # 100) with
  | Some [tr] =>
      (ar_pips (tr_row tr) == -70)%Q /\ (tr_net_pips tr == -73)%Q
      /\ ~ (tr_trade_profit tr == - stop_loss_pips * inject_Z 10 * position_size_of (inject_Z 10000) (1 # 100))%Q
  | _ => False
  end.
Proof. vm_compute. split; [reflexivity | split; [reflexivity | discriminate]]. Qed.

(** C2: for thresholds [t1 < t2], the trades selected by [commercial_net < t1]
    are a subsequence of those selected by [commercial_net < t2], both in
    [Backtester.backtest_threshold] and in [SimpleBacktester.analyze_thresholds];
    hence the trade count of [backtest_threshold] does not decrease with the
    threshold. *)
Theorem threshold_selection_monotone (t1 t2 : Z) :
  t1 < t2 ->
  (forall aligned, subseq (select_signals t1 aligned) (select_signals t2 aligned))
  /\ (forall data, subseq (simple_buy_signals t1 data) (simple_buy_signals t2 data))
  /\ (forall self, (trade_count self t1 <= trade_count self t2)%nat).
Proof.
  intros Ht.
  assert (Hsel : forall aligned, subseq (select_signals t1 aligned) (select_signals t2 aligned)).
  { intros aligned. apply filter_subseq. intros r H. apply Z.ltb_lt in H. apply Z.ltb_lt. lia. }
  split; [exact Hsel|]. split.
  - intros data. apply filter_subseq. intros r H. apply Z.ltb_lt in H. apply Z.ltb_lt. lia.
  - intros self. rewrite !trade_count_select. apply subseq_length, Hsel.
Qed.

Lemma threshold_selection_monotone_witness :
  -70000 < -50000
  /\ (forall aligned, subseq (select_signals (-70000) aligned) (select_signals (-50000) aligned))
  /\ (forall data, subseq (simple_buy_signals (-70000) data) (simple_buy_signals (-50000) data))
  /\ (forall self, (trade_count self (-70000) <= trade_count self (-50000))%nat).
Proof. split; [lia | apply (threshold_selection_monotone (-70000) (-50000)); lia]. Defined.

(** C4 (as amended): [backtest_threshold] has no stop-loss argument
    ([stop_loss_pips] is the constant 50) and does not check [risk_per_trade]:
    whenever some aligned trade is selected it returns a ledger, for any risk,
    zero and negative ones included, with
    [position_size = capital * risk_per_trade / 500]. *)
Theorem backtest_threshold_no_config_check self threshold capital risk aligned :
  align_cot_with_prices self = Some aligned ->
  select_signals threshold aligned <> [] ->
  exists trades, backtest_threshold self threshold capital risk = Some trades
    /\ List.length trades = List.length (select_signals threshold aligned)
    /\ Forall (fun tr => (tr_trade_profit tr == tr_net_pips tr * inject_Z 10 * (capital * risk / inject_Z 500))%Q)
         trades.
Proof.
  intros Ha Hs. eexists. split; [apply (backtest_threshold_selected _ _ _ _ _ Ha Hs)|].
  split; [apply trade_ledger_length|].
  eapply Forall_impl; [|apply trade_ledger_columns].
  intros tr (_ & -> & _). unfold position_size_of, stop_loss_pips.
  apply Qmult_comp; [reflexivity|]. unfold Qdiv. apply Qmult_comp; reflexivity.
Qed.

Lemma backtest_threshold_no_config_check_witness :
  align_cot_with_prices ex_state = Some (rows_of (align_cot_with_prices ex_state))
  /\ select_signals (-50000) (rows_of (align_cot_with_prices ex_state)) <> []
  /\ exists trades, backtest_threshold ex_state (-50000) (inject_Z 10000) 0 = Some trades
    /\ List.length trades = List.length (select_signals (-50000) (rows_of (align_cot_with_prices ex_state)))
    /\ Forall (fun tr => (tr_trade_profit tr == tr_net_pips tr * inject_Z 10 * (inject_Z 10000 * 0 / inject_Z 500))%Q)
         trades.
Proof.
  split; [vm_compute; reflexivity|]. split; [vm_compute; discriminate|].
  apply (backtest_threshold_no_config_check ex_state (-50000) (inject_Z 10000) 0
           (rows_of (align_cot_with_prices ex_state)));
    [vm_compute; reflexivity | vm_compute; discriminate].
Defined.

(** C4 (counterexample): with [risk_per_trade = 0] and with
    [risk_per_trade = -0.01] the simulator returns a non-empty ledger instead
    of failing with a configuration error. *)
Lemma backtest_threshold_accepts_nonpositive_risk :
  match backtest_threshold ex_state (-50000) (inject_Z 10000) 0,
        backtest_threshold ex_state (-50000) (inject_Z 10000) (-1 # 100) with
  | Some (_ :: _), Some (_ :: _) => True
  | _, _ => False
  end.
Proof. vm_compute. exact I. Qed.

(** C5 (as amended): when no aligned trade satisfies [commercial_net < threshold],
    [backtest_threshold] returns [None], the same value as when alignment
    produced no data or data are missing; it does not raise. *)
Theorem backtest_threshold_no_signal_none self threshold capital risk :
  (forall aligned, align_cot_with_prices self = Some aligned ->
     Forall (fun r => threshold <= ar_commercial_net r) aligned) ->
  backtest_threshold self threshold capital risk = None.
Proof.
  intros Hall. destruct (backtest_threshold self threshold capital risk) as [trades|] eqn:Eb;
    [|reflexivity].
  apply backtest_threshold_inv in Eb as (aligned & Ha & Hne & _).
  exfalso. apply Hne. specialize (Hall aligned Ha). unfold select_signals.
  clear -Hall. induction Hall as [|r l Hr Hl IH]; simpl; [reflexivity|].
  replace (ar_commercial_net r <? threshold) with false; [exact IH|].
  symmetry. apply Z.ltb_ge. exact Hr.
Qed.

Lemma backtest_threshold_no_signal_none_witness :
  (forall aligned, align_cot_with_prices ex_state = Some aligned ->
     Forall (fun r => -90000 <= ar_commercial_net r) aligned)
  /\ backtest_threshold ex_state (-90000) (inject_Z 10000) (1 # 100) = None.
Proof.
  assert (H : forall aligned, align_cot_with_prices ex_state = Some aligned ->
                Forall (fun r => -90000 <= ar_commercial_net r) aligned).
  { intros aligned Ha. vm_compute in Ha. injection Ha as <-.
    repeat constructor; simpl; discriminate. }
  split; [exact H | apply (backtest_threshold_no_signal_none ex_state (-90000)); exact H].
Defined.

(** C5 (counterexample): alignment yields a trade but none passes the
    threshold [-90000]; the result is [None], not an empty ledger, and it is
    the value returned for a [Backtester] without any data. *)
Lemma backtest_threshold_no_signal_not_empty :
  align_cot_with_prices ex_state <> None
  /\ backtest_threshold ex_state (-90000) (inject_Z 10000) (1 # 100) <> Some []
  /\ backtest_threshold ex_state (-90000) (inject_Z 10000) (1 # 100)
     = backtest_threshold (mk_backtester None None) (-90000) (inject_Z 10000) (1 # 100).
Proof. vm_compute. split; [discriminate | split; [discriminate | reflexivity]]. Qed.

(** ** Claims on the aligners *)

Section FilterMapLoop.
Variables (A B : Type) (f : A -> option B) (loop : list A -> list B).
Hypothesis loop_nil : loop [] = [].
Hypothesis loop_cons : forall a l, loop (a :: l) = match f a with Some b => b :: loop l | None => loop l end.

Lemma loop_pairs l : exists cs, subseq cs l /\ Forall2 (fun a b => f a = Some b) cs (loop l).
Proof.
  induction l as [|a l (cs & Hsub & Hf)].
  - exists []. rewrite loop_nil. auto with backtest.
  - rewrite loop_cons. destruct (f a) as [b|] eqn:E.
    + exists (a :: cs). auto with backtest.
    + exists cs. auto with backtest.
Qed.

Lemma loop_complete l a b : In a l -> f a = Some b -> In b (loop l).
Proof.
  induction l as [|a' l IH]; simpl; [tauto|]. rewrite loop_cons.
  intros [->|Hin] Hf.
  - rewrite Hf. now left.
  - destruct (f a'); [right|]; auto.
Qed.

End FilterMapLoop.

Lemma align_loop_cons ps c cs :
  align_loop ps (c :: cs)
  = match align_one ps c with Some r => r :: align_loop ps cs | None => align_loop ps cs end.
Proof. reflexivity. Qed.

Lemma merge_loop_cons ps c cs :
  merge_loop ps (c :: cs)
  = match merge_one ps c with Some r => r :: merge_loop ps cs | None => merge_loop ps cs end.
Proof. reflexivity. Qed.

Lemma align_rows ps cots :
  rows_of (align_cot_with_prices (mk_backtester (Some cots) (Some ps))) = align_loop ps (removelast cots).
Proof. unfold align_cot_with_prices. simpl. now destruct (align_loop ps (removelast cots)). Qed.

Lemma align_one_spec ps ps' c r :
  Permutation ps' ps -> Sorted (fun a b => date a <= date b) ps' ->
  align_one ps' c = Some r -> aligned_spec ps c r.
Proof.
  intros Hp Hs. unfold align_one, first_row.
  destruct (find (fun p => cot_date c <? date p) ps') as [e|] eqn:Ee; [|discriminate].
  destruct (find (fun p => cot_date c + 7 <=? date p) ps') as [x|] eqn:Ex; [|discriminate].
  intros H; injection H as <-.
  destruct (find_some _ _ Ee) as [Hie He]. destruct (find_some _ _ Ex) as [Hix Hx].
  apply Z.ltb_lt in He. apply Z.leb_le in Hx.
  exists e, x. repeat split; auto.
  - eapply Permutation_in; eauto.
  - eapply Permutation_in; eauto.
  - intros p Hin Hlt. apply (find_sorted_least date _ ps' e p Hs Ee).
    + eapply Permutation_in; [apply Permutation_sym|]; eauto.
    + now apply Z.ltb_lt.
  - intros p Hin Hle. apply (find_sorted_least date _ ps' x p Hs Ex).
    + eapply Permutation_in; [apply Permutation_sym|]; eauto.
    + now apply Z.leb_le.
Qed.

Lemma align_one_complete ps c :
  (exists p, In p ps /\ cot_date c < date p) ->
  (exists p, In p ps /\ cot_date c + 7 <= date p) ->
  exists r, align_one ps c = Some r.
Proof.
  intros [p [Hp Hlt]] [q [Hq Hle]]. unfold align_one, first_row.
  destruct (find (fun p => cot_date c <? date p) ps) eqn:Ee.
  - destruct (find (fun p => cot_date c + 7 <=? date p) ps) eqn:Ex; [eauto|].
    apply (find_none _ _ Ex) in Hq. apply Z.leb_gt in Hq. lia.
  - apply (find_none _ _ Ee) in Hp. apply Z.ltb_ge in Hp. lia.
Qed.

Lemma merge_one_spec ps c r : merge_one ps c = Some r -> merged_spec ps c r.
Proof.
  unfold merge_one. destruct (loc_slice (cot_date c + 3) (cot_date c + 3 + 5) ps) as [|w0 ws] eqn:E;
    [discriminate|].
  intros H; injection H as <-. exists w0, ws. repeat split; auto.
Qed.

Lemma merge_one_complete ps c :
  (exists p, In p ps /\ cot_date c + 3 <= o_date p <= cot_date c + 3 + 5) ->
  exists r, merge_one ps c = Some r.
Proof.
  intros [p [Hp Hw]]. unfold merge_one.
  destruct (loc_slice (cot_date c + 3) (cot_date c + 3 + 5) ps) eqn:E; [|eauto].
  assert (Hin : In p (loc_slice (cot_date c + 3) (cot_date c + 3 + 5) ps)).
  { unfold loc_slice. apply filter_In. split; [exact Hp|].
    apply andb_true_intro. split; apply Z.leb_le; lia. }
  rewrite E in Hin. destruct Hin.
Qed.

(** C3 (as amended): [Backtester.align_cot_with_prices] pairs its rows with
    distinct reports, in order, among all but the last report; each row has as
    entry the first price point after [cot_date] and as exit the first price
    point on or after [cot_date + 7]; a report whose two lookups succeed is
    aligned, and no other row is made ([rows_of] reads [None] as no rows).
    [DataEngine.merge_data] follows a different rule: for every report whose
    week window [cot_date + 3 .. cot_date + 8] holds prices it emits a row whose
    entry and exit dates are the window bounds and whose prices are the open
    of the first and the close of the last price row of the window. *)
Theorem alignment_entry_exit_rules sort_values (Hsort : sort_contract sort_values)
    (cots : list cot_row) (ps : list price_row) (ops : list ohlc_row) :
  (exists cs, subseq cs (removelast cots)
     /\ Forall2 (aligned_spec ps) cs
          (rows_of (align_cot_with_prices (Backtester_init sort_values (Some cots) (Some ps)))))
  /\ (forall c, In c (removelast cots) ->
        (exists p, In p ps /\ cot_date c < date p) ->
        (exists p, In p ps /\ cot_date c + 7 <= date p) ->
        exists r, In r (rows_of (align_cot_with_prices (Backtester_init sort_values (Some cots) (Some ps))))
                  /\ aligned_spec ps c r)
  /\ (exists cs, subseq cs cots
        /\ Forall2 (merged_spec ops) cs (rows_of (merge_data (mk_engine (Some cots) (Some ops)))))
  /\ (forall c, In c cots ->
        (exists p, In p ops /\ cot_date c + 3 <= o_date p <= cot_date c + 3 + 5) ->
        exists r, In r (rows_of (merge_data (mk_engine (Some cots) (Some ops)))) /\ merged_spec ops c r).
Proof.
  destruct (Hsort price_row date ps) as [Hp Hs].
  unfold Backtester_init. simpl option_map. rewrite align_rows.
  set (ps' := sort_values price_row date ps) in *.
  split; [|split; [|split]].
  - destruct (loop_pairs _ _ (align_one ps') (align_loop ps') eq_refl (align_loop_cons ps') (removelast cots))
      as (cs & Hsub & Hf).
    exists cs. split; [exact Hsub|].
    eapply Forall2_impl; [|exact Hf]. intros c r. now apply align_one_spec.
  - intros c Hc He Hx.
    assert (He' : exists p, In p ps' /\ cot_date c < date p).
    { destruct He as [p [Hin Hlt]]. exists p. split; [|exact Hlt].
      eapply Permutation_in; [apply Permutation_sym, Hp | exact Hin]. }
    assert (Hx' : exists p, In p ps' /\ cot_date c + 7 <= date p).
    { destruct Hx as [p [Hin Hle]]. exists p. split; [|exact Hle].
      eapply Permutation_in; [apply Permutation_sym, Hp | exact Hin]. }
    destruct (align_one_complete ps' c He' Hx') as [r Hr].
    exists r. split.
    + exact (loop_complete _ _ _ _ (align_loop_cons ps') _ _ _ Hc Hr).
    + exact (align_one_spec ps ps' c r Hp Hs Hr).
  - destruct (loop_pairs _ _ (merge_one ops) (merge_loop ops) eq_refl (merge_loop_cons ops) cots)
      as (cs & Hsub & Hf).
    exists cs. split; [exact Hsub|]. simpl.
    eapply Forall2_impl; [|exact Hf]. intros c r. apply merge_one_spec.
  - intros c Hc Hw. destruct (merge_one_complete ops c Hw) as [r Hr].
    exists r. split; [|now apply merge_one_spec].
    exact (loop_complete _ _ _ _ (merge_loop_cons ops) _ _ _ Hc Hr).
Qed.

Lemma alignment_entry_exit_rules_witness :
  sort_contract stable_sort
  /\ (exists cs, subseq cs (removelast ex_cots)
       /\ Forall2 (aligned_spec ex_prices) cs
            (rows_of (align_cot_with_prices (Backtester_init stable_sort (Some ex_cots) (Some ex_prices)))))
  /\ (forall c, In c (removelast ex_cots) ->
        (exists p, In p ex_prices /\ cot_date c < date p) ->
        (exists p, In p ex_prices /\ cot_date c + 7 <= date p) ->
        exists r, In r (rows_of (align_cot_with_prices
                                   (Backtester_init stable_sort (Some ex_cots) (Some ex_prices))))
                  /\ aligned_spec ex_prices c r)
  /\ (exists cs, subseq cs ex_cots
        /\ Forall2 (merged_spec ex_engine_prices) cs
             (rows_of (merge_data (mk_engine (Some ex_cots) (Some ex_engine_prices)))))
  /\ (forall c, In c ex_cots ->
        (exists p, In p ex_engine_prices /\ cot_date c + 3 <= o_date p <= cot_date c + 3 + 5) ->
        exists r, In r (rows_of (merge_data (mk_engine (Some ex_cots) (Some ex_engine_prices))))
                  /\ merged_spec ex_engine_prices c r).
Proof.
  split; [exact stable_sort_contract|].
  apply (alignment_entry_exit_rules stable_sort stable_sort_contract ex_cots ex_prices ex_engine_prices).
Defined.

(** C3 (counterexample): [merge_data] emits a row for a report although no
    price point lies on or after [cot_date + 7], and records as entry date
    day 3, on which there is no price point. *)
Lemma merge_data_row_without_exit_lookup :
  match merge_data ex_engine with
  | Some [r] =>
      find (fun p => cot_date (hd (mk_cot 0 0 0 0) ex_engine_cots) + 7 <=? o_date p) ex_engine_prices = None
      /\ m_entry_date r = 3 /\ ~ In (m_entry_date r) (map o_date ex_engine_prices)
  | _ => False
  end.
Proof. vm_compute. split; [reflexivity | split; [reflexivity | intros [H|H]; [discriminate | exact H]]]. Qed.

Lemma removelast_length {A : Type} (l : list A) : List.length (removelast l) = (List.length l - 1)%nat.
Proof.
  induction l as [|a l IH]; [reflexivity|].
  destruct l as [|b l]; [reflexivity|].
  change (removelast (a :: b :: l)) with (a :: removelast (b :: l)).
  simpl List.length in *. rewrite IH. lia.
Qed.

Lemma removelast_below_last {A : Type} (R : A -> A -> Prop) (l : list A) c d :
  StronglySorted R l -> In c (removelast l) -> R c (last l d).
Proof.
  induction 1 as [|a l Hs IH Hall]; [intros []|].
  destruct l as [|b l]; [intros []|].
  intros [<-|Hin].
  - rewrite Forall_forall in Hall. apply Hall.
    change (last (a :: b :: l) d) with (last (b :: l) d).
    destruct (@exists_last _ (b :: l)) as (l' & z & Hz); [discriminate|].
    rewrite Hz, last_last. apply in_or_app. right. now left.
  - change (last (a :: b :: l) d) with (last (b :: l) d). exact (IH Hin).
Qed.

Lemma Forall2_in_r {A B : Type} (R : A -> B -> Prop) l1 l2 y :
  Forall2 R l1 l2 -> In y l2 -> exists x, In x l1 /\ R x y.
Proof.
  induction 1 as [|x y' l1 l2 Hxy Hf IH]; [intros []|].
  intros [<-|Hin]; [exists x; simpl; auto|].
  destruct (IH Hin) as (x' & Hx' & Hr). exists x'. simpl. auto.
Qed.

Lemma align_one_cot_date ps c r : align_one ps c = Some r -> ar_cot_date r = cot_date c.
Proof.
  unfold align_one. destruct (first_row _ ps); [|discriminate].
  destruct (first_row _ ps); [|discriminate]. intros H; injection H as <-. reflexivity.
Qed.

(** C9 (as amended): [align_cot_with_prices] emits at most [n - 1] rows, each
    from a distinct report among all but the one in the last position of
    [cot_data] (that report is never read); when [cot_data] is in strictly
    ascending date order, no row has the date of the chronologically last
    report. *)
Theorem align_skips_last_position (cots : list cot_row) (ps : list price_row) out :
  align_cot_with_prices (mk_backtester (Some cots) (Some ps)) = Some out ->
  (List.length out <= List.length cots - 1)%nat
  /\ (exists cs, subseq cs (removelast cots) /\ Forall2 (fun c r => align_one ps c = Some r) cs out)
  /\ (Sorted (fun a b => cot_date a < cot_date b) cots ->
      forall c0 r, In r out -> ar_cot_date r < cot_date (last cots c0)).
Proof.
  intros H.
  assert (Hout : out = align_loop ps (removelast cots)).
  { pose proof (align_rows ps cots) as E. rewrite H in E. exact E. }
  destruct (loop_pairs _ _ (align_one ps) (align_loop ps) eq_refl (align_loop_cons ps) (removelast cots))
    as (cs & Hsub & Hf).
  rewrite <- Hout in Hf.
  split; [|split].
  - rewrite <- removelast_length, <- (Forall2_length Hf). now apply subseq_length.
  - exists cs. auto.
  - intros Hs c0 r Hr.
    apply Sorted_StronglySorted in Hs; [|intros a b c; lia].
    destruct (Forall2_in_r _ _ _ _ Hf Hr) as (c & Hc & Hcr).
    rewrite (align_one_cot_date ps c r Hcr).
    apply (removelast_below_last (fun a b => cot_date a < cot_date b) cots c c0 Hs).
    exact (subseq_in _ _ _ Hsub Hc).
Qed.

Lemma align_skips_last_position_witness :
  align_cot_with_prices (mk_backtester (Some ex_cots) (Some ex_prices))
    = Some (rows_of (align_cot_with_prices (mk_backtester (Some ex_cots) (Some ex_prices))))
  /\ (List.length (rows_of (align_cot_with_prices (mk_backtester (Some ex_cots) (Some ex_prices))))
        <= List.length ex_cots - 1)%nat
  /\ (exists cs, subseq cs (removelast ex_cots)
        /\ Forall2 (fun c r => align_one ex_prices c = Some r) cs
             (rows_of (align_cot_with_prices (mk_backtester (Some ex_cots) (Some ex_prices)))))
  /\ (Sorted (fun a b => cot_date a < cot_date b) ex_cots ->
      forall c0 r, In r (rows_of (align_cot_with_prices (mk_backtester (Some ex_cots) (Some ex_prices)))) ->
      ar_cot_date r < cot_date (last ex_cots c0)).
Proof.
  split; [vm_compute; reflexivity|].
  apply (align_skips_last_position ex_cots ex_prices). vm_compute. reflexivity.
Defined.

(** C9 (counterexample): with [cot_data] in descending date order, the
    chronologically last report (day 14) is aligned and the earliest one, in
    the last position, is skipped. *)
Lemma align_emits_latest_report_when_unsorted :
  match align_cot_with_prices (mk_backtester (Some ex_cots_desc) (Some ex_prices_late)) with
  | Some [r] => ar_cot_date r = 14 /\ Forall (fun c => cot_date c <= 14) ex_cots_desc
  | _ => False
  end.
Proof. vm_compute. split; [reflexivity | repeat constructor; discriminate]. Qed.

(** ** Claims on the performance analyzer *)

Lemma Qltb_iff x y : Qltb x y = true <-> (x < y)%Q.
Proof.
  unfold Qltb. rewrite negb_true_iff. split.
  - intros H. apply Qnot_le_lt. intros Hle. apply Qle_bool_iff in Hle. congruence.
  - intros H. destruct (Qle_bool y x) eqn:E; [|reflexivity].
    apply Qle_bool_iff in E. exfalso. exact (Qlt_not_le _ _ H E).
Qed.

Lemma Qltb_compat x x' y y' : (x == x')%Q -> (y == y')%Q -> Qltb x y = Qltb x' y'.
Proof.
  intros Hx Hy. destruct (Qltb x y) eqn:E; destruct (Qltb x' y') eqn:E'; auto.
  - apply Qltb_iff in E. rewrite Hx, Hy in E. apply Qltb_iff in E. congruence.
  - apply Qltb_iff in E'. rewrite <- Hx, <- Hy in E'. apply Qltb_iff in E'. congruence.
Qed.

Lemma round_half_even_compat x y : (x == y)%Q -> round_half_even x = round_half_even y.
Proof.
  intros H. unfold round_half_even. rewrite (Qfloor_comp x y H).
  rewrite (Qltb_compat (x - inject_Z (Qfloor y)) (y - inject_Z (Qfloor y)) (1 # 2) (1 # 2))
    by (rewrite ?H; reflexivity).
  rewrite (Qltb_compat (1 # 2) (1 # 2) (x - inject_Z (Qfloor y)) (y - inject_Z (Qfloor y)))
    by (rewrite ?H; reflexivity).
  reflexivity.
Qed.

Lemma round2_compat x y : (x == y)%Q -> round2 x = round2 y.
Proof. intros H. unfold round2. f_equal. apply round_half_even_compat. now rewrite H. Qed.

Lemma neg_pips_nil trades :
  Forall (fun tr => ~ (tr_net_pips tr < 0)%Q) trades -> neg_pips (net_pips_of trades) = [].
Proof.
  induction 1 as [|tr l Htr Hl IH]; [reflexivity|]. simpl.
  destruct (Qltb (tr_net_pips tr) 0) eqn:E; [|exact IH].
  apply Qltb_iff in E. contradiction.
Qed.

(** C6 (code bug): when no trade has negative net pips, [get_strategy_stats]
    reports a profit factor of 0 (line 424), the value that the guard
    [if losing_pips > 0 else 0] of [analyze_thresholds] (line 358) also
    intends; but line 357 defaults the missing losses to 1, so that guard
    never fires and [analyze_thresholds] reports the rounded sum of the
    winning pips instead. Neither raises or yields NaN or infinity. *)
Theorem profit_factor_without_losses trades :
  Forall (fun tr => ~ (tr_net_pips tr < 0)%Q) trades ->
  profit_factor_analyze trades = round2 (sumQ (pos_pips (net_pips_of trades)))
  /\ profit_factor_stats trades = 0%Q.
Proof.
  intros H. pose proof (neg_pips_nil trades H) as Hn. split.
  - unfold profit_factor_analyze. rewrite Hn.
    replace (Qltb 0 1) with true by reflexivity.
    destruct (pos_pips (net_pips_of trades)) as [|p ps]; apply round2_compat.
    + reflexivity.
    + unfold Qdiv. simpl Qinv. apply Qmult_1_r.
  - unfold profit_factor_stats. rewrite Hn. reflexivity.
Qed.

Lemma profit_factor_without_losses_witness :
  Forall (fun tr => ~ (tr_net_pips tr < 0)%Q) (rows_of (backtest_threshold_default (ex_rising_state 7) (-50000)))
  /\ profit_factor_analyze (rows_of (backtest_threshold_default (ex_rising_state 7) (-50000)))
     = round2 (sumQ (pos_pips (net_pips_of (rows_of (backtest_threshold_default (ex_rising_state 7) (-50000))))))
  /\ profit_factor_stats (rows_of (backtest_threshold_default (ex_rising_state 7) (-50000))) = 0%Q.
Proof.
  assert (H : Forall (fun tr => ~ (tr_net_pips tr < 0)%Q)
                (rows_of (backtest_threshold_default (ex_rising_state 7) (-50000)))).
  { vm_compute. repeat constructor; intros Hlt; vm_compute in Hlt; discriminate. }
  split; [exact H | apply (profit_factor_without_losses _ H)].
Defined.

(** C6 (counterexample): on six winning trades of 57 net pips each,
    [get_strategy_stats] reports the profit factor 0 while [analyze_thresholds]
    reports 342 for every threshold, and 285 on five such trades: the two entry
    points do not share a value when there are no losses. *)
Lemma profit_factor_no_common_sentinel :
  map an_profit_factor (analyze_thresholds (ex_rising_state 7)) = repeat (round2 (inject_Z 342)) 7
  /\ get_strategy_stats_profit_factor (ex_rising_state 7) (-50000) = Some 0%Q
  /\ (profit_factor_analyze (rows_of (backtest_threshold_default (ex_rising_state 7) (-50000))) == inject_Z 342)%Q
  /\ (profit_factor_analyze (rows_of (backtest_threshold_default (ex_rising_state 6) (-50000))) == inject_Z 285)%Q.
Proof. vm_compute. repeat split; reflexivity. Qed.





(** ** Claims on the loaders *)

(** C8 (code bug): on a file none of whose rows parses, the pandas path of
    [load_price_data_from_file] returns an empty table (a success) instead of
    [None]: its zero-row test (line 72) runs before the rows failing to parse
    are dropped (line 103). The manual parser on the same rows yields [None]
    and the loader then reports failure. *)
Theorem load_price_zero_valid_rows_succeeds to_datetime to_numeric sort_values parse_date py_float :
  sort_contract sort_values ->
  to_datetime (CStr "foo") = None -> parse_date "foo"%string = None ->
  load_price_data_from_file to_datetime to_numeric sort_values (Some ex_bad_frame) None None = Some []
  /\ load_price_data_from_file to_datetime to_numeric sort_values None None
       (Some (_manual_csv_parse parse_date py_float ex_bad_rows)) = None.
Proof.
  intros Hsort Htd Hpd. split.
  - unfold load_price_data_from_file, read_price_file, load_price_from_frame. simpl.
    rewrite Htd. simpl.
    destruct (Hsort price_row date []) as [Hp _].
    now rewrite (Permutation_nil (Permutation_sym Hp)).
  - assert (Hs : strip_by is_quote (strip "foo") = "foo"%string) by reflexivity.
    assert (Hm : _manual_csv_parse parse_date py_float ex_bad_rows = None).
    { unfold _manual_csv_parse, manual_rows, manual_row, ex_bad_rows. cbv zeta.
      rewrite Hs, Hpd. destruct (py_float _); reflexivity. }
    rewrite Hm. reflexivity.
Qed.

Lemma load_price_zero_valid_rows_succeeds_witness :
  sort_contract stable_sort
  /\ (fun _ : cell => @None Z) (CStr "foo") = None
  /\ (fun _ : string => @None Z) "foo"%string = None
  /\ load_price_data_from_file (fun _ => None) (fun _ => None) stable_sort (Some ex_bad_frame) None None = Some []
  /\ load_price_data_from_file (fun _ => None) (fun _ => None) stable_sort None None
       (Some (_manual_csv_parse (fun _ => None) (fun _ => None) ex_bad_rows)) = None.
Proof.
  split; [exact stable_sort_contract|]. split; [reflexivity|]. split; [reflexivity|].
  apply (load_price_zero_valid_rows_succeeds (fun _ => None) (fun _ => None) stable_sort
           (fun _ => None) (fun _ => None) stable_sort_contract); reflexivity.
Defined.

Lemma drop_duplicates_from_in seen l y :
  In y (drop_duplicates_from seen l) -> In y l /\ ~ In (cot_date y) seen.
Proof.
  revert seen. induction l as [|r rs IH]; intros seen; simpl; [tauto|].
  destruct (existsb (Z.eqb (cot_date r)) seen) eqn:E.
  - intros H. destruct (IH seen H) as [Hin Hn]. auto.
  - intros [->|H].
    + split; [now left|]. intros Hin.
      assert (existsb (Z.eqb (cot_date y)) seen = true)
        by (apply existsb_exists; exists (cot_date y); split; [exact Hin | apply Z.eqb_refl]).
      congruence.
    + destruct (IH _ H) as [Hin Hn]. split; [now right|]. intros Hs. apply Hn. now right.
Qed.

Lemma drop_duplicates_from_complete seen l x :
  In x l -> In (cot_date x) seen \/ exists y, In y (drop_duplicates_from seen l) /\ cot_date y = cot_date x.
Proof.
  revert seen. induction l as [|r rs IH]; intros seen; simpl; [tauto|].
  intros Hx. destruct (existsb (Z.eqb (cot_date r)) seen) eqn:E.
  - destruct Hx as [->|Hx]; [|now apply IH].
    left. apply existsb_exists in E as (d & Hd & Heq). apply Z.eqb_eq in Heq. now rewrite Heq.
  - destruct Hx as [->|Hx]; [right; exists x; simpl; auto|].
    destruct (IH (cot_date r :: seen) Hx) as [[Heq|Hin]|(y & Hy & Heq)].
    + right. exists r. simpl. auto.
    + now left.
    + right. exists y. simpl. auto.
Qed.

Lemma drop_duplicates_from_first seen l y :
  In y (drop_duplicates_from seen l) ->
  exists pre post, l = pre ++ y :: post /\ Forall (fun x => cot_date x <> cot_date y) pre.
Proof.
  revert seen. induction l as [|r rs IH]; intros seen; simpl; [tauto|].
  destruct (existsb (Z.eqb (cot_date r)) seen) eqn:E.
  - intros H. destruct (IH _ H) as (pre & post & -> & Hpre).
    exists (r :: pre), post. split; [reflexivity|]. constructor; [|exact Hpre].
    intros Heq. apply (proj2 (drop_duplicates_from_in _ _ _ H)).
    apply existsb_exists in E as (d & Hd & Hdr). apply Z.eqb_eq in Hdr. congruence.
  - intros [<-|H].
    + exists [], rs. auto.
    + destruct (IH _ H) as (pre & post & -> & Hpre).
      exists (r :: pre), post. split; [reflexivity|]. constructor; [|exact Hpre].
      intros Heq. apply (proj2 (drop_duplicates_from_in _ _ _ H)). left. exact Heq.
Qed.

Lemma drop_duplicates_from_sorted seen l :
  StronglySorted (fun a b => cot_date a <= cot_date b) l ->
  StronglySorted (fun a b => cot_date a < cot_date b) (drop_duplicates_from seen l).
Proof.
  intros Hs. revert seen. induction Hs as [|r rs Hs IH Hall]; intros seen; simpl; [constructor|].
  destruct (existsb (Z.eqb (cot_date r)) seen); [apply IH|].
  constructor; [apply IH|]. apply Forall_forall. intros y Hy.
  destruct (drop_duplicates_from_in _ _ _ Hy) as [Hin Hn].
  rewrite Forall_forall in Hall. specialize (Hall y Hin).
  assert (cot_date r <> cot_date y) by (intros Heq; apply Hn; left; exact Heq). lia.
Qed.

(** C10 (as amended): [load_cot_data] returns a table sorted ascending by
    [cot_date] with unique dates; each of its rows is one of the loaded rows,
    each loaded date is kept, and the row kept for a date is the first row of
    that date in the order produced by [sort_values], for any sort meeting
    [sort_contract] (sorted permutation, ties in no fixed order). *)
Theorem load_cot_data_dedup sort_values (Hsort : sort_contract sort_values) (dfs : list (list cot_row)) :
  dfs <> [] ->
  exists table, load_cot_data sort_values dfs = Some table
    /\ Sorted (fun a b => cot_date a < cot_date b) table
    /\ (forall r, In r table -> In r (List.concat dfs))
    /\ (forall r, In r (List.concat dfs) -> exists r', In r' table /\ cot_date r' = cot_date r)
    /\ (forall r, In r table ->
          exists pre post, sort_values cot_row cot_date (List.concat dfs) = pre ++ r :: post
            /\ Forall (fun x => cot_date x <> cot_date r) pre).
Proof.
  intros Hne. destruct (Hsort cot_row cot_date (List.concat dfs)) as [Hp Hs].
  exists (drop_duplicates (sort_values cot_row cot_date (List.concat dfs))).
  split; [destruct dfs; [congruence | reflexivity]|].
  split; [|split; [|split]].
  - apply StronglySorted_Sorted, drop_duplicates_from_sorted.
    apply Sorted_StronglySorted; [intros a b c; lia | exact Hs].
  - intros r Hr. apply (Permutation_in _ Hp). exact (proj1 (drop_duplicates_from_in _ _ _ Hr)).
  - intros r Hr. apply (Permutation_in _ (Permutation_sym Hp)) in Hr.
    destruct (drop_duplicates_from_complete [] _ r Hr) as [[]|H]. exact H.
  - intros r Hr. exact (drop_duplicates_from_first _ _ _ Hr).
Qed.

Lemma load_cot_data_dedup_witness :
  sort_contract stable_sort /\ ex_dup_files <> []
  /\ exists table, load_cot_data stable_sort ex_dup_files = Some table
    /\ Sorted (fun a b => cot_date a < cot_date b) table
    /\ (forall r, In r table -> In r (List.concat ex_dup_files))
    /\ (forall r, In r (List.concat ex_dup_files) -> exists r', In r' table /\ cot_date r' = cot_date r)
    /\ (forall r, In r table ->
          exists pre post, stable_sort cot_row cot_date (List.concat ex_dup_files) = pre ++ r :: post
            /\ Forall (fun x => cot_date x <> cot_date r) pre).
Proof.
  split; [exact stable_sort_contract|]. split; [discriminate|].
  apply (load_cot_data_dedup stable_sort stable_sort_contract ex_dup_files). discriminate.
Defined.

(** C10 (counterexample): with pandas' default sort (numpy's quicksort),
    on the 18 rows of a 17-week file followed by a file repeating the report
    of day 7, the sort puts the second file's row of day 7 before the first
    file's, and [load_cot_data] keeps the second file's row, not the
    first-seen one (position 1 of the concatenation). *)
Lemma load_cot_data_keeps_non_first_duplicate :
  (exists sorted, pandas_sort_values 1000 cot_row cot_date (List.concat ex_overlap_files) = Some sorted
     /\ load_cot_data (fun A k l => rows_of (pandas_sort_values 1000 A k l)) ex_overlap_files
        = Some (drop_duplicates sorted))
  /\ nth_error (List.concat ex_overlap_files) 1 = Some (mk_cot 7 100 0 100)
  /\ nth_error (List.concat ex_overlap_files) 17 = Some (mk_cot 7 200 0 200)
  /\ In (mk_cot 7 200 0 200) (rows_of (load_cot_data (fun A k l => rows_of (pandas_sort_values 1000 A k l)) ex_overlap_files))
  /\ ~ In (mk_cot 7 100 0 100) (rows_of (load_cot_data (fun A k l => rows_of (pandas_sort_values 1000 A k l)) ex_overlap_files)).
Proof.
  split; [eexists; split; vm_compute; reflexivity|].
  split; [reflexivity|]. split; [reflexivity|].
  vm_compute. split; [tauto|]. intros H. repeat (destruct H as [H|H]; [discriminate|]). exact H.
Qed.

(** ** Further properties of the simulator and of the analyses *)

Lemma sumQ_cons x l : sumQ (x :: l) = (x + sumQ l)%Q.
Proof. reflexivity. Qed.

Lemma trade_ledger_cons capital ps cum spread r rs :
  trade_ledger capital ps cum spread (r :: rs)
  = mk_sim r 1 (ar_pips r - spread)%Q ((ar_pips r - spread) * inject_Z 10 * ps)%Q
      (cum + (ar_pips r - spread) * inject_Z 10 * ps)%Q
      (capital + (cum + (ar_pips r - spread) * inject_Z 10 * ps))%Q (Qltb 0 (ar_pips r - spread))
    :: trade_ledger capital ps (cum + (ar_pips r - spread) * inject_Z 10 * ps)%Q spread rs.
Proof. reflexivity. Qed.

Lemma trade_ledger_prefix capital ps cum spread l i d :
  (i < List.length l)%nat ->
  (tr_cumulative_profit (nth i (trade_ledger capital ps cum spread l) d)
   == cum + sumQ (firstn (S i) (map tr_trade_profit (trade_ledger capital ps cum spread l))))%Q.
Proof.
  revert cum i. induction l as [|r rs IH]; intros cum i Hi; simpl in Hi; [lia|].
  rewrite trade_ledger_cons. destruct i as [|i].
  - simpl. ring.
  - cbn [nth map firstn]. rewrite sumQ_cons, IH by lia. simpl. ring.
Qed.

Lemma trade_ledger_equity capital ps cum spread l :
  Forall (fun tr => tr_equity tr = (capital + tr_cumulative_profit tr)%Q)
    (trade_ledger capital ps cum spread l).
Proof. revert cum. induction l; intros; simpl; constructor; auto. Qed.

Lemma last_cons_ne {A : Type} (a : A) l d : l <> [] -> last (a :: l) d = last l d.
Proof. destruct l; [congruence | reflexivity]. Qed.

Lemma trade_ledger_last_equity capital ps cum spread l d :
  l <> [] ->
  (tr_equity (last (trade_ledger capital ps cum spread l) d)
   == capital + (cum + sumQ (map tr_trade_profit (trade_ledger capital ps cum spread l))))%Q.
Proof.
  revert cum. induction l as [|r rs IH]; intros cum Hne; [congruence|].
  destruct rs as [|r' rs'].
  - simpl. ring.
  - rewrite trade_ledger_cons. rewrite last_cons_ne by (simpl; discriminate).
    rewrite IH by discriminate. cbn [map]. rewrite sumQ_cons. simpl. ring.
Qed.

Lemma backtest_threshold_nonempty self threshold capital risk trades :
  backtest_threshold self threshold capital risk = Some trades -> trades <> [].
Proof.
  intros H. apply backtest_threshold_inv in H as (aligned & _ & Hne & ->).
  intros H. apply (f_equal (@List.length _)) in H. rewrite trade_ledger_length in H.
  destruct (select_signals threshold aligned); [congruence | discriminate].
Qed.

(** X1: along the ledger of [backtest_threshold], [cumulative_profit] of the
    [i]-th trade is the sum of the first [i + 1] trade profits and [equity] is
    [capital] plus that running sum. *)
Theorem backtest_threshold_running_equity self threshold capital risk trades :
  backtest_threshold self threshold capital risk = Some trades ->
  forall i d, (i < List.length trades)%nat ->
    (tr_cumulative_profit (nth i trades d) == sumQ (firstn (S i) (map tr_trade_profit trades)))%Q
    /\ tr_equity (nth i trades d) = (capital + tr_cumulative_profit (nth i trades d))%Q.
Proof.
  intros H i d Hi. apply backtest_threshold_inv in H as (aligned & _ & _ & ->).
  split.
  - rewrite trade_ledger_prefix by (rewrite trade_ledger_length in Hi; exact Hi). ring.
  - pose proof (trade_ledger_equity capital (position_size_of capital risk) 0 spread_pips
                  (select_signals threshold aligned)) as Hf.
    rewrite Forall_forall in Hf. apply Hf, nth_In. exact Hi.
Qed.

Lemma backtest_threshold_running_equity_witness :
  backtest_threshold (ex_rising_state 7) (-50000) (inject_Z 10000) (1 # 100)
    = Some ex_ledger
  /\ forall i d, (i < List.length ex_ledger)%nat ->
    (tr_cumulative_profit (nth i ex_ledger d)
     == sumQ (firstn (S i) (map tr_trade_profit ex_ledger)))%Q
    /\ tr_equity (nth i ex_ledger d)
       = (inject_Z 10000 + tr_cumulative_profit (nth i ex_ledger d))%Q.
Proof.
  assert (H : backtest_threshold (ex_rising_state 7) (-50000) (inject_Z 10000) (1 # 100)
    = Some ex_ledger)
    by (vm_compute; reflexivity).
  split; [exact H | exact (backtest_threshold_running_equity _ _ _ _ _ H)].
Defined.

(** X2: the total profit of a ledger is [10 * position_size] times its total
    net pips, and the total net pips are the total raw pips minus the 3 pip
    spread once per trade. *)
Theorem backtest_threshold_total_profit self threshold capital risk trades :
  backtest_threshold self threshold capital risk = Some trades ->
  (sumQ (map tr_trade_profit trades)
   == sumQ (map tr_net_pips trades) * inject_Z 10 * position_size_of capital risk)%Q
  /\ (sumQ (map tr_net_pips trades)
      == sumQ (map (fun tr => ar_pips (tr_row tr)) trades)
         - inject_Z (Z.of_nat (List.length trades)) * spread_pips)%Q.
Proof.
  intros H. apply backtest_threshold_inv in H as (aligned & _ & _ & ->).
  pose proof (trade_ledger_columns capital (position_size_of capital risk) 0 spread_pips
                (select_signals threshold aligned)) as Hc.
  generalize dependent (trade_ledger capital (position_size_of capital risk) 0 spread_pips
                          (select_signals threshold aligned)).
  intros l Hc. induction Hc as [|tr l (Hn & Hp & _) Hl IH]; [split; simpl; ring|].
  destruct IH as [IH1 IH2]. cbn [map List.length]. rewrite !sumQ_cons. split.
  - rewrite Hp, IH1. ring.
  - rewrite IH2, Hn, Nat2Z.inj_succ, <- Z.add_1_r, inject_Z_plus. ring.
Qed.

Lemma backtest_threshold_total_profit_witness :
  backtest_threshold (ex_rising_state 7) (-50000) (inject_Z 10000) (1 # 100)
    = Some ex_ledger
  /\ (sumQ (map tr_trade_profit ex_ledger)
      == sumQ (map tr_net_pips ex_ledger)
         * inject_Z 10 * position_size_of (inject_Z 10000) (1 # 100))%Q
  /\ (sumQ (map tr_net_pips ex_ledger)
      == sumQ (map (fun tr => ar_pips (tr_row tr)) ex_ledger)
         - inject_Z (Z.of_nat (List.length ex_ledger)) * spread_pips)%Q.
Proof.
  assert (H : backtest_threshold (ex_rising_state 7) (-50000) (inject_Z 10000) (1 # 100)
    = Some ex_ledger)
    by (vm_compute; reflexivity).
  split; [exact H | exact (backtest_threshold_total_profit _ _ _ _ _ H)].
Defined.

(** X3: the [final_equity] reported by [get_strategy_stats] is the rounded
    [10000] plus the sum of the trade profits of the ledger. *)
Theorem get_strategy_stats_final_equity_total self threshold trades :
  backtest_threshold_default self threshold = Some trades ->
  get_strategy_stats_final_equity self threshold
  = Some (round2 (inject_Z 10000 + sumQ (map tr_trade_profit trades))%Q).
Proof.
  intros Hb. unfold get_strategy_stats_final_equity. rewrite Hb.
  unfold backtest_threshold_default in Hb.
  pose proof (backtest_threshold_nonempty _ _ _ _ _ Hb) as Hne.
  apply backtest_threshold_inv in Hb as (aligned & _ & Hsel & Et).
  destruct trades as [|tr trs]; [congruence|].
  f_equal. apply round2_compat. rewrite Et. rewrite trade_ledger_last_equity by exact Hsel. ring.
Qed.

Lemma get_strategy_stats_final_equity_total_witness :
  backtest_threshold_default (ex_rising_state 7) (-50000) = Some ex_ledger
  /\ get_strategy_stats_final_equity (ex_rising_state 7) (-50000)
     = Some (round2 (inject_Z 10000 + sumQ (map tr_trade_profit ex_ledger))%Q).
Proof.
  assert (H : backtest_threshold_default (ex_rising_state 7) (-50000) = Some ex_ledger)
    by (vm_compute; reflexivity).
  split; [exact H | exact (get_strategy_stats_final_equity_total _ _ _ H)].
Defined.

Lemma round_half_even_ge k y : (inject_Z k <= y)%Q -> k <= round_half_even y.
Proof.
  intros H. assert (Hf : k <= Qfloor y) by (rewrite <- (Qfloor_Z k); now apply Qfloor_resp_le).
  unfold round_half_even. cbv zeta.
  destruct (Qltb _ (1 # 2)); [lia|]. destruct (Qltb (1 # 2) _); [lia|]. destruct (Z.even _); lia.
Qed.

Lemma round_half_even_le k y : (y <= inject_Z k)%Q -> round_half_even y <= k.
Proof.
  intros H. assert (Hf : Qfloor y <= k) by (rewrite <- (Qfloor_Z k); now apply Qfloor_resp_le).
  pose proof (Qfloor_le y) as Hl.
  unfold round_half_even. cbv zeta.
  destruct (Z.eq_dec (Qfloor y) k) as [Heq|Hneq].
  - assert (Hr : (y - inject_Z (Qfloor y) == 0)%Q).
    { rewrite Heq in Hl |- *. apply Qle_antisym; lra. }
    rewrite (Qltb_compat _ 0 (1 # 2) (1 # 2) Hr (Qeq_refl _)). simpl. lia.
  - destruct (Qltb _ (1 # 2)); [lia|]. destruct (Qltb (1 # 2) _); [lia|]. destruct (Z.even _); lia.
Qed.

Lemma round2_ge k x : (inject_Z k <= x * inject_Z 100)%Q -> (Qmake k 100 <= round2 x)%Q.
Proof. intros H. apply round_half_even_ge in H. unfold round2, Qle. simpl. nia. Qed.

Lemma round2_le k x : (x * inject_Z 100 <= inject_Z k)%Q -> (round2 x <= Qmake k 100)%Q.
Proof. intros H. apply round_half_even_le in H. unfold round2, Qle. simpl. nia. Qed.

Lemma round2_nonneg x : (0 <= x)%Q -> (0 <= round2 x)%Q.
Proof.
  intros H. apply (Qle_trans _ (Qmake 0 100)); [unfold Qle; simpl; lia|].
  apply round2_ge. change (inject_Z 100) with (100 # 1). change (inject_Z 0) with (0 # 1). lra.
Qed.

Lemma sumQ_nonneg l : Forall (fun p => 0 <= p)%Q l -> (0 <= sumQ l)%Q.
Proof. induction 1 as [|x l Hx Hl IH]; [apply Qle_refl|]. rewrite sumQ_cons. lra. Qed.

Lemma pos_pips_pos l : Forall (fun p => 0 < p)%Q (pos_pips l).
Proof. apply Forall_forall. intros p Hp. apply filter_In in Hp as [_ Hp]. now apply Qltb_iff. Qed.

(** X4: the profit factor reported by [analyze_thresholds] and the one
    reported by [get_strategy_stats] are never negative. *)
Theorem profit_factor_nonnegative trades :
  (0 <= profit_factor_analyze trades)%Q /\ (0 <= profit_factor_stats trades)%Q.
Proof.
  split.
  - unfold profit_factor_analyze. apply round2_nonneg.
    pose proof (pos_pips_pos (net_pips_of trades)) as Hpos.
    assert (Hw : (0 <= match pos_pips (net_pips_of trades) with [] => 0 | ps => sumQ ps end)%Q).
    { destruct (pos_pips (net_pips_of trades)) as [|p ps]; [apply Qle_refl|].
      apply sumQ_nonneg. eapply Forall_impl; [|exact Hpos]. intros q Hq. now apply Qlt_le_weak. }
    destruct (Qltb 0 _) eqn:E; [|apply Qle_refl].
    apply Qltb_iff in E. apply Qle_shift_div_l; [exact E|]. rewrite Qmult_0_l. exact Hw.
  - unfold profit_factor_stats. destruct (negb _); [apply round2_nonneg, Qabs_nonneg | apply Qle_refl].
Qed.

Lemma Qmax'_spec a x : (a <= Qmax' a x)%Q /\ (x <= Qmax' a x)%Q /\ (Qmax' a x = a \/ Qmax' a x = x).
Proof.
  unfold Qmax'. destruct (Qle_bool a x) eqn:E.
  - apply Qle_bool_iff in E. split; [exact E|]. split; [apply Qle_refl | now right].
  - split; [apply Qle_refl|]. split; [|now left].
    apply Qlt_le_weak, Qnot_le_lt. intros H. apply Qle_bool_iff in H. congruence.
Qed.

Lemma Qmin'_spec a x : (Qmin' a x <= a)%Q /\ (Qmin' a x <= x)%Q /\ (Qmin' a x = a \/ Qmin' a x = x).
Proof.
  unfold Qmin'. destruct (Qle_bool a x) eqn:E.
  - apply Qle_bool_iff in E. split; [apply Qle_refl|]. split; [exact E | now left].
  - split; [|split; [apply Qle_refl | now right]].
    apply Qlt_le_weak, Qnot_le_lt. intros H. apply Qle_bool_iff in H. congruence.
Qed.

Lemma fold_Qmax'_spec l a :
  (forall y, In y (a :: l) -> (y <= fold_left Qmax' l a)%Q) /\ In (fold_left Qmax' l a) (a :: l).
Proof.
  revert a. induction l as [|x l IH]; intros a; simpl.
  - split; [intros y [<-|[]]; apply Qle_refl | now left].
  - destruct (IH (Qmax' a x)) as [Hge Hin]. destruct (Qmax'_spec a x) as (H1 & H2 & H3). split.
    + intros y [<-|[<-|Hy]].
      * eapply Qle_trans; [exact H1 | apply Hge; now left].
      * eapply Qle_trans; [exact H2 | apply Hge; now left].
      * apply Hge. now right.
    + destruct Hin as [Hm|Hin]; [|right; right; exact Hin].
      rewrite <- Hm. destruct H3 as [H3|H3]; rewrite H3; [now left | right; now left].
Qed.

Lemma fold_Qmin'_spec l a :
  (forall y, In y (a :: l) -> (fold_left Qmin' l a <= y)%Q) /\ In (fold_left Qmin' l a) (a :: l).
Proof.
  revert a. induction l as [|x l IH]; intros a; simpl.
  - split; [intros y [<-|[]]; apply Qle_refl | now left].
  - destruct (IH (Qmin' a x)) as [Hle Hin]. destruct (Qmin'_spec a x) as (H1 & H2 & H3). split.
    + intros y [<-|[<-|Hy]].
      * eapply Qle_trans; [apply Hle; now left | exact H1].
      * eapply Qle_trans; [apply Hle; now left | exact H2].
      * apply Hle. now right.
    + destruct Hin as [Hm|Hin]; [|right; right; exact Hin].
      rewrite <- Hm. destruct H3 as [H3|H3]; rewrite H3; [now left | right; now left].
Qed.

Lemma expanding_max_from_ge m l : Forall2 (fun x p => x <= p)%Q l (expanding_max_from m l).
Proof.
  revert m. induction l as [|x l IH]; intros m; simpl; constructor;
    [exact (proj1 (proj2 (Qmax'_spec m x))) | apply IH].
Qed.

Lemma expanding_max_ge l : Forall2 (fun x p => x <= p)%Q l (expanding_max l).
Proof. destruct l as [|x l]; simpl; constructor; [apply Qle_refl | apply expanding_max_from_ge]. Qed.

Lemma drawdown_bounds equity :
  Forall (fun e => 0 < e)%Q equity -> Forall (fun d => -1 < d /\ d <= 0)%Q (drawdown_series equity).
Proof.
  intros Hpos. unfold drawdown_series. pose proof (expanding_max_ge equity) as H2.
  induction H2 as [|x p l ps Hxp H2 IH]; simpl; constructor.
  - inversion Hpos as [|? ? Hx Hl]; subst. simpl. split.
    + apply Qlt_shift_div_l; lra.
    + apply Qle_shift_div_r; lra.
  - apply IH. inversion Hpos; auto.
Qed.

(** X5: when every equity value of the ledger is positive, each drawdown
    [(equity - peak) / peak] lies in [(-1, 0]] and the [max_drawdown_pct] of
    [get_strategy_stats] lies in [[-100, 0]]. *)
Theorem get_strategy_stats_drawdown_bounds self threshold trades :
  backtest_threshold_default self threshold = Some trades ->
  Forall (fun tr => 0 < tr_equity tr)%Q trades ->
  exists dd, get_strategy_stats_max_drawdown self threshold = Some dd
    /\ (-100 <= dd <= 0)%Q
    /\ Forall (fun d => -1 < d /\ d <= 0)%Q (drawdown_series (map tr_equity trades)).
Proof.
  intros Hb Hpos.
  assert (Hd : Forall (fun d => -1 < d /\ d <= 0)%Q (drawdown_series (map tr_equity trades)))
    by (apply drawdown_bounds, Forall_map; exact Hpos).
  unfold get_strategy_stats_max_drawdown. rewrite Hb.
  unfold backtest_threshold_default in Hb.
  pose proof (backtest_threshold_nonempty _ _ _ _ _ Hb) as Hne.
  destruct trades as [|tr trs]; [congruence|].
  unfold max_drawdown_of.
  destruct (drawdown_series (map tr_equity (tr :: trs))) as [|d ds] eqn:E; [simpl in E; discriminate|].
  simpl option_map. eexists. split; [reflexivity|]. split; [|exact Hd].
  destruct (fold_Qmin'_spec ds d) as [_ Hin].
  rewrite Forall_forall in Hd. destruct (Hd _ Hin) as [Hlo Hhi].
  set (m := fold_left Qmin' ds d) in *.
  split.
  - apply (Qle_trans _ (Qmake (-10000) 100)); [unfold Qle; simpl; lia|].
    apply round2_ge. change (inject_Z 100) with (100 # 1). change (inject_Z (-10000)) with (-10000 # 1). lra.
  - apply (Qle_trans _ (Qmake 0 100)); [|unfold Qle; simpl; lia].
    apply round2_le. change (inject_Z 100) with (100 # 1). change (inject_Z 0) with (0 # 1). lra.
Qed.

Lemma get_strategy_stats_drawdown_bounds_witness :
  backtest_threshold_default (ex_rising_state 7) (-50000) = Some ex_ledger
  /\ Forall (fun tr => 0 < tr_equity tr)%Q ex_ledger
  /\ exists dd, get_strategy_stats_max_drawdown (ex_rising_state 7) (-50000) = Some dd
    /\ (-100 <= dd <= 0)%Q
    /\ Forall (fun d => -1 < d /\ d <= 0)%Q (drawdown_series (map tr_equity ex_ledger)).
Proof.
  assert (H : backtest_threshold_default (ex_rising_state 7) (-50000) = Some ex_ledger)
    by (vm_compute; reflexivity).
  assert (Hp : Forall (fun tr => 0 < tr_equity tr)%Q ex_ledger)
    by (vm_compute; repeat constructor).
  split; [exact H|]. split; [exact Hp|].
  exact (get_strategy_stats_drawdown_bounds _ _ _ H Hp).
Defined.

Lemma aligned_spec_dates ps c r :
  aligned_spec ps c r ->
  ar_cot_date r < ar_entry_date r /\ ar_entry_date r <= ar_exit_date r /\ ar_cot_date r + 7 <= ar_exit_date r.
Proof.
  intros (e & x & He & Hx & Hlt & Hle & H7 & Hx7 & ->). simpl.
  split; [lia|]. split; [|lia]. apply Hle; [exact Hx | lia].
Qed.

Lemma align_sorted_dates self ps cots :
  bt_price_data self = Some ps -> bt_cot_data self = Some cots ->
  Sorted (fun a b => date a <= date b) ps ->
  forall r, In r (rows_of (align_cot_with_prices self)) ->
    ar_cot_date r < ar_entry_date r /\ ar_entry_date r <= ar_exit_date r /\ ar_cot_date r + 7 <= ar_exit_date r.
Proof.
  intros Hp Hc Hs r Hr.
  assert (E : rows_of (align_cot_with_prices self) = align_loop ps (removelast cots)).
  { unfold align_cot_with_prices. rewrite Hp, Hc. now destruct (align_loop ps (removelast cots)). }
  rewrite E in Hr.
  destruct (loop_pairs _ _ (align_one ps) (align_loop ps) eq_refl (align_loop_cons ps) (removelast cots))
    as (cs & _ & Hf).
  destruct (Forall2_in_r _ _ _ _ Hf Hr) as (c & _ & Hcr).
  exact (aligned_spec_dates _ _ _ (align_one_spec ps ps c r (Permutation_refl _) Hs Hcr)).
Qed.

(** X6: once the price data are sorted by date, by [__init__] or by
    [set_price_data] (which then returns [True]), every aligned row enters
    after its report ([cot_date < entry_date]), exits on or after
    [cot_date + 7], and never exits before it enters. *)
Theorem aligned_trade_dates_ordered sort_values (Hsort : sort_contract sort_values)
    (cots : list cot_row) (ps : list price_row) (self0 : Backtester) :
  (forall r, In r (rows_of (align_cot_with_prices (Backtester_init sort_values (Some cots) (Some ps)))) ->
     ar_cot_date r < ar_entry_date r /\ ar_entry_date r <= ar_exit_date r /\ ar_cot_date r + 7 <= ar_exit_date r)
  /\ snd (set_price_data sort_values self0 (Some ps)) = true
  /\ (forall r, In r (rows_of (align_cot_with_prices (fst (set_price_data sort_values self0 (Some ps))))) ->
     ar_cot_date r < ar_entry_date r /\ ar_entry_date r <= ar_exit_date r /\ ar_cot_date r + 7 <= ar_exit_date r).
Proof.
  destruct (Hsort price_row date ps) as [_ Hs]. split; [|split; [reflexivity|]].
  - exact (align_sorted_dates (Backtester_init sort_values (Some cots) (Some ps)) _ cots eq_refl eq_refl Hs).
  - destruct (bt_cot_data self0) as [cots0|] eqn:Ec.
    + exact (align_sorted_dates (fst (set_price_data sort_values self0 (Some ps))) _ cots0 eq_refl Ec Hs).
    + intros r Hr. unfold align_cot_with_prices in Hr. simpl in Hr. rewrite Ec in Hr. destruct Hr.
Qed.

Lemma aligned_trade_dates_ordered_witness :
  sort_contract stable_sort
  /\ (forall r, In r (rows_of (align_cot_with_prices (Backtester_init stable_sort (Some ex_cots) (Some ex_prices)))) ->
       ar_cot_date r < ar_entry_date r /\ ar_entry_date r <= ar_exit_date r /\ ar_cot_date r + 7 <= ar_exit_date r)
  /\ snd (set_price_data stable_sort ex_state (Some ex_prices)) = true
  /\ (forall r, In r (rows_of (align_cot_with_prices (fst (set_price_data stable_sort ex_state (Some ex_prices))))) ->
       ar_cot_date r < ar_entry_date r /\ ar_entry_date r <= ar_exit_date r /\ ar_cot_date r + 7 <= ar_exit_date r).
Proof.
  split; [exact stable_sort_contract|].
  exact (aligned_trade_dates_ordered stable_sort stable_sort_contract ex_cots ex_prices ex_state).
Defined.

Lemma filter_length_le' {A : Type} (f : A -> bool) l : (List.length (filter f l) <= List.length l)%nat.
Proof. induction l as [|a l IH]; simpl; [lia|]. destruct (f a); simpl; lia. Qed.

(** X7: on [n] COT reports, a ledger returned by [backtest_threshold] has at
    least one and at most [n - 1] trades. *)
Theorem backtest_threshold_trade_count_bounds cots ps threshold capital risk trades :
  backtest_threshold (mk_backtester (Some cots) ps) threshold capital risk = Some trades ->
  (1 <= List.length trades <= List.length cots - 1)%nat.
Proof.
  intros H. apply backtest_threshold_inv in H as (aligned & Ha & Hne & ->).
  rewrite trade_ledger_length.
  destruct ps as [ps|]; [|discriminate].
  pose proof (align_rows ps cots) as E. rewrite Ha in E. simpl in E.
  destruct (loop_pairs _ _ (align_one ps) (align_loop ps) eq_refl (align_loop_cons ps) (removelast cots))
    as (cs & Hsub & Hf).
  rewrite <- E in Hf. split.
  - destruct (select_signals threshold aligned); [congruence | simpl; lia].
  - eapply Nat.le_trans; [apply filter_length_le'|].
    rewrite <- (Forall2_length Hf), <- removelast_length. now apply subseq_length.
Qed.

Lemma backtest_threshold_trade_count_bounds_witness :
  backtest_threshold (mk_backtester (Some (ex_rising_cots 7)) (Some (ex_rising_prices 7))) (-50000)
    (inject_Z 10000) (1 # 100)
  = Some (rows_of (backtest_threshold (mk_backtester (Some (ex_rising_cots 7)) (Some (ex_rising_prices 7)))
                     (-50000) (inject_Z 10000) (1 # 100)))
  /\ (1 <= List.length (rows_of (backtest_threshold (mk_backtester (Some (ex_rising_cots 7)) (Some (ex_rising_prices 7)))
                                   (-50000) (inject_Z 10000) (1 # 100)))
        <= List.length (ex_rising_cots 7) - 1)%nat.
Proof.
  assert (H : backtest_threshold (mk_backtester (Some (ex_rising_cots 7)) (Some (ex_rising_prices 7))) (-50000)
    (inject_Z 10000) (1 # 100)
  = Some (rows_of (backtest_threshold (mk_backtester (Some (ex_rising_cots 7)) (Some (ex_rising_prices 7)))
                     (-50000) (inject_Z 10000) (1 # 100)))) by (vm_compute; reflexivity).
  split; [exact H | exact (backtest_threshold_trade_count_bounds _ _ _ _ _ _ H)].
Defined.

Lemma flat_map_StronglySorted {A B : Type} (Ra : A -> A -> Prop) (R : B -> B -> Prop) (f : A -> list B) l :
  StronglySorted Ra l -> (forall a, (List.length (f a) <= 1)%nat) ->
  (forall a a' b b', Ra a a' -> In b (f a) -> In b' (f a') -> R b b') ->
  StronglySorted R (flat_map f l).
Proof.
  intros Hs Hlen HR. induction Hs as [|a l Hs IH Hall]; simpl; [constructor|].
  specialize (Hlen a). destruct (f a) as [|b [|b0 bs]] eqn:Ef; simpl in Hlen |- *; [exact IH| |lia].
  constructor; [exact IH|]. apply Forall_forall. intros b' Hb'.
  apply in_flat_map in Hb' as (a' & Ha' & Hb').
  rewrite Forall_forall in Hall. apply (HR a a'); [exact (Hall a' Ha') | rewrite Ef; now left | exact Hb'].
Qed.

Lemma flat_map_length_le {A B : Type} (f : A -> list B) l :
  (forall a, (List.length (f a) <= 1)%nat) -> (List.length (flat_map f l) <= List.length l)%nat.
Proof.
  intros Hlen. induction l as [|a l IH]; simpl; [lia|]. rewrite length_app. specialize (Hlen a). lia.
Qed.

Lemma trade_count_mono self t1 t2 : t1 < t2 -> (trade_count self t1 <= trade_count self t2)%nat.
Proof.
  intros Ht. rewrite !trade_count_select. apply subseq_length, filter_subseq.
  intros r Hr. apply Z.ltb_lt in Hr. apply Z.ltb_lt. lia.
Qed.

Lemma analyze_one_row self t r :
  In r (analyze_one self t) -> an_threshold r = t /\ an_trades r = trade_count self t.
Proof.
  unfold analyze_one, trade_count. destruct (backtest_threshold_default self t) as [trades|]; [|intros []].
  destruct (5 <? List.length trades)%nat; [|intros []]. intros [<-|[]]. split; reflexivity.
Qed.

Lemma analyze_one_length self t : (List.length (analyze_one self t) <= 1)%nat.
Proof.
  unfold analyze_one. destruct (backtest_threshold_default self t); [|simpl; lia].
  destruct (5 <? _)%nat; simpl; lia.
Qed.

(** X8: the rows of the [analyze_thresholds] table come in strictly
    increasing threshold order, at most one per threshold of the sweep, each
    with the trade count of [backtest_threshold] at its threshold, so that the
    [trades] column never decreases down the table. *)
Theorem analyze_thresholds_table_ordered self :
  StronglySorted (fun a b => an_threshold a < an_threshold b /\ (an_trades a <= an_trades b)%nat)
    (analyze_thresholds self)
  /\ (List.length (analyze_thresholds self) <= List.length thresholds)%nat
  /\ (forall r, In r (analyze_thresholds self) ->
        In (an_threshold r) thresholds /\ an_trades r = trade_count self (an_threshold r)).
Proof.
  unfold analyze_thresholds.
  destruct (bt_price_data self), (bt_cot_data self);
    try (split; [constructor | split; [simpl; lia | intros r []]]).
  split; [|split].
  - apply (flat_map_StronglySorted Z.lt); [|apply analyze_one_length|].
    + unfold thresholds. repeat constructor.
    + intros a a' b b' Ha Hb Hb'. apply analyze_one_row in Hb as [-> ->], Hb' as [-> ->].
      split; [exact Ha | now apply trade_count_mono].
  - apply flat_map_length_le, analyze_one_length.
  - intros r Hr. apply in_flat_map in Hr as (t & Ht & Hr). apply analyze_one_row in Hr as [-> Htr].
    auto.
Qed.

(** X9: a date column returned by [_find_date_column] is a column of the
    frame, and a price column returned by [_find_price_column] is a column of
    the frame other than the excluded date column. *)
Theorem find_columns_in_frame (df : frame) (exclude_col : string) :
  (forall name, _find_date_column df = Some (Some name) -> In name (map col_name df))
  /\ (forall name, _find_price_column df exclude_col = Some name ->
        In name (map col_name df) /\ name <> exclude_col).
Proof.
  split.
  - intros name. unfold _find_date_column.
    destruct (find _ df) as [c|] eqn:Ef.
    + intros H; injection H as <-. apply in_map. exact (proj1 (find_some _ _ Ef)).
    + destruct df as [|c0 cs]; [discriminate|].
      destruct (if (0 <? nrows (c0 :: cs))%nat then _ else _) as [[s| | |]|]; try discriminate.
      destruct (existsb _ _); [|discriminate]. intros H; injection H as <-. now left.
  - intros name. unfold _find_price_column.
    destruct (find _ df) as [c|] eqn:Ef.
    + intros H; injection H as <-. destruct (find_some _ _ Ef) as [Hin Hc].
      apply andb_true_iff in Hc as [Hx _]. apply negb_true_iff, String.eqb_neq in Hx.
      split; [apply in_map; exact Hin | exact Hx].
    + destruct df as [|c0 [|c1 cs]]; try discriminate.
      destruct (String.eqb (col_name c1) exclude_col) eqn:E; simpl; [discriminate|].
      intros H; injection H as <-. apply String.eqb_neq in E. split; [right; left; reflexivity | exact E].
Qed.

Lemma get_column_cells name df :
  get_column name df = [] \/ exists c, In c df /\ col_cells c = get_column name df.
Proof.
  induction df as [|c cs IH]; simpl; [now left|].
  destruct (String.eqb (col_name c) name).
  - right. exists c. auto.
  - destruct IH as [H|(c' & Hin & Hc)]; [now left | right; exists c'; auto].
Qed.

Lemma get_column_length n name df :
  Forall (fun c => List.length (col_cells c) = n) df -> (List.length (get_column name df) <= n)%nat.
Proof.
  intros Hf. destruct (get_column_cells name df) as [-> | (c & Hin & <-)]; simpl; [lia|].
  rewrite Forall_forall in Hf. rewrite (Hf c Hin). lia.
Qed.

Lemma dropna_rows_in rows p : In p (dropna_rows rows) -> In (Some (date p), Some (price p)) rows.
Proof.
  induction rows as [|[[d|] [q|]] rs IH]; simpl; try tauto.
  intros [<-|Hp]; [now left | right; auto].
Qed.

Lemma dropna_rows_length rows : (List.length (dropna_rows rows) <= List.length rows)%nat.
Proof. induction rows as [|[[d|] [q|]] rs IH]; simpl; lia. Qed.

(** X10: when [load_price_from_frame] accepts a rectangular frame, the
    price rows it returns are sorted by date, are no more than the frame's
    rows, and each carries a date that [to_datetime] gives for some cell of
    the frame. *)
Theorem load_price_from_frame_rows to_datetime to_numeric sort_values
    (Hsort : sort_contract sort_values) (df0 : frame) (prices : list price_row)
    (Hrect : Forall (fun c => List.length (col_cells c) = nrows df0) df0) :
  load_price_from_frame to_datetime to_numeric sort_values (Some df0) = Some prices ->
  Sorted (fun a b => date a <= date b) prices
  /\ (List.length prices <= nrows df0)%nat
  /\ (forall p, In p prices -> exists c x, In c df0 /\ In x (col_cells c) /\ to_datetime x = Some (date p)).
Proof.
  unfold load_price_from_frame. cbv zeta.
  destruct (nrows df0 =? 0)%nat; [discriminate|].
  set (df := map (fun c => mk_column (clean_name (col_name c)) (col_cells c)) df0).
  destruct (_find_date_column df) as [[date_col|]|]; try discriminate.
  set (dates := map to_datetime (get_column date_col df)).
  destruct (_find_price_column _ date_col) as [price_col|]; [|discriminate].
  set (rows := dropna_rows (combine dates _)).
  intros H; injection H as <-.
  destruct (Hsort price_row date rows) as [Hp Hs].
  assert (Hdf : Forall (fun c => List.length (col_cells c) = nrows df0) df).
  { unfold df. apply Forall_map. exact Hrect. }
  split; [exact Hs | split].
  - rewrite (Permutation_length Hp). unfold rows.
    eapply Nat.le_trans; [apply dropna_rows_length|]. rewrite length_combine.
    unfold dates. rewrite length_map. pose proof (get_column_length _ date_col _ Hdf). lia.
  - intros p Hin. apply (Permutation_in _ Hp), dropna_rows_in, in_combine_l in Hin.
    unfold dates in Hin. apply in_map_iff in Hin as (x & Hx & Hxin).
    destruct (get_column_cells date_col df) as [E | (c & Hc & E)]; [rewrite E in Hxin; destruct Hxin|].
    rewrite <- E in Hxin. unfold df in Hc. apply in_map_iff in Hc as (c0 & <- & Hc0).
    exists c0, x. auto.
Qed.

Lemma load_price_from_frame_rows_witness :
  sort_contract stable_sort
  /\ Forall (fun c => List.length (col_cells c) = nrows ex_price_frame) ex_price_frame
  /\ load_price_from_frame ex_to_datetime (fun _ => None) stable_sort (Some ex_price_frame)
     = Some (rows_of (load_price_from_frame ex_to_datetime (fun _ => None) stable_sort (Some ex_price_frame)))
  /\ Sorted (fun a b => date a <= date b)
       (rows_of (load_price_from_frame ex_to_datetime (fun _ => None) stable_sort (Some ex_price_frame)))
  /\ (List.length (rows_of (load_price_from_frame ex_to_datetime (fun _ => None) stable_sort (Some ex_price_frame)))
        <= nrows ex_price_frame)%nat
  /\ (forall p, In p (rows_of (load_price_from_frame ex_to_datetime (fun _ => None) stable_sort (Some ex_price_frame))) ->
        exists c x, In c ex_price_frame /\ In x (col_cells c) /\ ex_to_datetime x = Some (date p)).
Proof.
  assert (Hr : Forall (fun c => List.length (col_cells c) = nrows ex_price_frame) ex_price_frame)
    by (vm_compute; repeat constructor).
  assert (H : load_price_from_frame ex_to_datetime (fun _ => None) stable_sort (Some ex_price_frame)
     = Some (rows_of (load_price_from_frame ex_to_datetime (fun _ => None) stable_sort (Some ex_price_frame))))
    by (vm_compute; reflexivity).
  split; [exact stable_sort_contract|]. split; [exact Hr|]. split; [exact H|].
  exact (load_price_from_frame_rows ex_to_datetime (fun _ => None) stable_sort stable_sort_contract
           ex_price_frame _ Hr H).
Defined.

Lemma manual_row_some parse_date py_float r x :
  manual_row parse_date py_float r = Some x ->
  exists r0 r1 rest, r = r0 :: r1 :: rest
    /\ parse_date (strip_by is_quote (strip r0)) = Some (fst x)
    /\ py_float (remove_char "," (strip_by is_quote (strip r1))) = Some (snd x).
Proof.
  unfold manual_row. destruct r as [|r0 [|r1 rest]]; try discriminate. cbv zeta.
  destruct (py_float _) as [q|] eqn:Ep; [|discriminate].
  destruct (parse_date _) as [d|] eqn:Ed; [|discriminate].
  intros H; injection H as <-. exists r0, r1, rest. auto.
Qed.

Lemma manual_rows_spec parse_date py_float rows :
  (List.length (manual_rows parse_date py_float rows) <= List.length rows)%nat
  /\ Forall (fun x => exists r0 r1 rest, In (r0 :: r1 :: rest) rows
       /\ parse_date (strip_by is_quote (strip r0)) = Some (fst x)
       /\ py_float (remove_char "," (strip_by is_quote (strip r1))) = Some (snd x))
     (manual_rows parse_date py_float rows).
Proof.
  induction rows as [|r rs [IHl IHf]]; simpl; [split; [lia | constructor]|].
  assert (Hw : Forall (fun x => exists r0 r1 rest, In (r0 :: r1 :: rest) (r :: rs)
       /\ parse_date (strip_by is_quote (strip r0)) = Some (fst x)
       /\ py_float (remove_char "," (strip_by is_quote (strip r1))) = Some (snd x))
     (manual_rows parse_date py_float rs)).
  { eapply Forall_impl; [|exact IHf]. intros x (r0 & r1 & rest & Hin & H). exists r0, r1, rest. simpl; auto. }
  destruct (manual_row parse_date py_float r) as [x|] eqn:E; simpl.
  - split; [lia|]. constructor; [|exact Hw].
    destruct (manual_row_some _ _ _ _ E) as (r0 & r1 & rest & -> & Hd & Hq).
    exists r0, r1, rest. simpl. auto.
  - split; [lia | exact Hw].
Qed.

Definition keep_valid_prices (parsed : list (Z * option Q)) : list (Z * Q) :=
  flat_map (fun x => match snd x with Some q => [(fst x, q)] | None => [] end) parsed.

Lemma keep_valid_prices_columns parsed :
  map (fun x => CDate (fst x)) (filter (fun x => match snd x with Some _ => true | None => false end) parsed)
    = map (fun x => CDate (fst x)) (keep_valid_prices parsed)
  /\ map (fun x => match snd x with Some q => CNum q | None => CNA end)
       (filter (fun x => match snd x with Some _ => true | None => false end) parsed)
    = map (fun x => CNum (snd x)) (keep_valid_prices parsed).
Proof.
  unfold keep_valid_prices. induction parsed as [|[d [q|]] ps [IH1 IH2]]; simpl; auto.
  rewrite IH1, IH2. auto.
Qed.

(** X11: [_manual_csv_parse] returns a frame with exactly the columns
    [date] and [price], holding the same number of rows, at most one per
    input row; every frame row has a datetime and a number (rows whose price
    is nan are dropped), both parsed from the first two fields of one input
    row of length at least 2. *)
Theorem manual_csv_parse_frame parse_date py_float (rows : list (list string)) (df : frame) :
  _manual_csv_parse parse_date py_float rows = Some df ->
  exists kept : list (Z * Q),
    df = [mk_column "date" (map (fun x => CDate (fst x)) kept);
          mk_column "price" (map (fun x => CNum (snd x)) kept)]%string
    /\ (List.length kept <= List.length rows)%nat
    /\ Forall (fun x => exists r0 r1 rest, In (r0 :: r1 :: rest) rows
         /\ parse_date (strip_by is_quote (strip r0)) = Some (fst x)
         /\ py_float (remove_char "," (strip_by is_quote (strip r1))) = Some (Some (snd x))) kept.
Proof.
  unfold _manual_csv_parse. destruct (manual_rows_spec parse_date py_float rows) as [Hl Hf].
  destruct (manual_rows parse_date py_float rows) as [|x xs] eqn:E; [discriminate|].
  cbv beta iota zeta. intros H.
  destruct (keep_valid_prices_columns (x :: xs)) as [E1 E2]. rewrite E1, E2 in H.
  injection H as <-. exists (keep_valid_prices (x :: xs)).
  split; [reflexivity | split].
  - eapply Nat.le_trans; [|exact Hl]. clear. unfold keep_valid_prices.
    induction (x :: xs) as [|[d [q|]] ps IH]; simpl; lia.
  - clear E E1 E2 Hl. unfold keep_valid_prices.
    induction (x :: xs) as [|[d [q|]] ps IH]; simpl; [constructor| |].
    + inversion Hf as [|? ? Hd Hps]; subst. constructor; [exact Hd | exact (IH Hps)].
    + inversion Hf as [|? ? Hd Hps]; subst. exact (IH Hps).
Qed.

Lemma manual_csv_parse_frame_witness :
  _manual_csv_parse (fun _ => Some 5) (fun _ => Some (Some (3 # 2))) [["2024-01-02"; "1.5"]; ["x"]]%string
    = Some (rows_of (_manual_csv_parse (fun _ => Some 5) (fun _ => Some (Some (3 # 2)))
                       [["2024-01-02"; "1.5"]; ["x"]]%string))
  /\ exists kept : list (Z * Q),
    rows_of (_manual_csv_parse (fun _ => Some 5) (fun _ => Some (Some (3 # 2)))
               [["2024-01-02"; "1.5"]; ["x"]]%string)
    = [mk_column "date" (map (fun x => CDate (fst x)) kept);
       mk_column "price" (map (fun x => CNum (snd x)) kept)]%string
    /\ (List.length kept <= List.length [["2024-01-02"; "1.5"]; ["x"]]%string)%nat
    /\ Forall (fun x => exists r0 r1 rest, In (r0 :: r1 :: rest) [["2024-01-02"; "1.5"]; ["x"]]%string
         /\ (fun _ => Some 5) (strip_by is_quote (strip r0)) = Some (fst x)
         /\ (fun _ => Some (Some (3 # 2))) (remove_char "," (strip_by is_quote (strip r1))) = Some (Some (snd x))) kept.
Proof.
  assert (H : _manual_csv_parse (fun _ => Some 5) (fun _ => Some (Some (3 # 2))) [["2024-01-02"; "1.5"]; ["x"]]%string
    = Some (rows_of (_manual_csv_parse (fun _ => Some 5) (fun _ => Some (Some (3 # 2)))
                       [["2024-01-02"; "1.5"]; ["x"]]%string))) by reflexivity.
  split; [exact H | exact (manual_csv_parse_frame _ _ _ _ H)].
Defined.

Ltac z_cases :=
  repeat (match goal with
          | |- context [Z.ltb ?a ?b] => destruct (Z.ltb_spec a b)
          | |- context [Z.leb ?a ?b] => destruct (Z.leb_spec a b)
          end; simpl; try (exfalso; lia)); try reflexivity.

Lemma pd_cut_signal_label x i : (i < 7)%nat ->
  match pd_cut signal_bins signal_labels x with
  | Some l => String.eqb l (nth i signal_labels EmptyString)
  | None => false
  end = (nth i signal_bins 0 <? x) && (x <=? nth (S i) signal_bins 0).
Proof.
  intros Hi. destruct i as [|[|[|[|[|[|[|i]]]]]]]; [..|lia];
    unfold pd_cut, cut_index, signal_bins; simpl; z_cases.
Qed.

Lemma filter_map_length {A B : Type} (f : B -> bool) (g : A -> B) l :
  List.length (filter f (map g l)) = List.length (filter (fun x => f (g x)) l).
Proof. induction l as [|a l IH]; simpl; [reflexivity|]. destruct (f (g a)); simpl; auto. Qed.

Lemma list_nth_seq {A : Type} (l : list A) d : map (fun i => nth i l d) (seq 0 (List.length l)) = l.
Proof.
  induction l as [|a l IH]; [reflexivity|]. simpl. rewrite <- seq_shift, map_map. simpl.
  now rewrite IH.
Qed.

(** X12: the [signal_distribution] of [generate_report] counts, for each
    label in order, the COT reports whose [commercial_net] lies in that
    label's interval [(b_i, b_(i+1)]] of the bins; reports with
    [commercial_net] outside [(-200000, 200000]] are in no interval and are
    not counted, so the counts sum to the number of reports inside it. *)
Theorem generate_report_signal_distribution_counts self dist :
  generate_report_signal_distribution self = Some dist ->
  exists cot_df, bt_cot_data self = Some cot_df
  /\ dist = map (fun i => (nth i signal_labels EmptyString,
                           List.length (filter (fun c => (nth i signal_bins 0 <? commercial_net c)
                                                          && (commercial_net c <=? nth (S i) signal_bins 0)) cot_df)))
              (seq 0 7)
  /\ list_sum (map snd dist)
     = List.length (filter (fun c => (-200000 <? commercial_net c) && (commercial_net c <=? 200000)) cot_df).
Proof.
  unfold generate_report_signal_distribution.
  destruct (bt_cot_data self) as [[|c0 cs]|]; try discriminate.
  destruct (bt_price_data self) as [[|p0 ps]|]; try discriminate.
  intros H.
  assert (E : value_counts_sorted signal_labels
                (map (fun c => pd_cut signal_bins signal_labels (commercial_net c)) (c0 :: cs))
              = map (fun i => (nth i signal_labels EmptyString,
                           List.length (filter (fun c => (nth i signal_bins 0 <? commercial_net c)
                                                          && (commercial_net c <=? nth (S i) signal_bins 0)) (c0 :: cs))))
              (seq 0 7)).
  { unfold value_counts_sorted. rewrite <- (list_nth_seq signal_labels EmptyString) at 1.
    rewrite map_map. apply map_ext_in. intros i Hi. apply in_seq in Hi.
    f_equal. rewrite filter_map_length. f_equal. apply filter_ext. intros c.
    apply pd_cut_signal_label. simpl in Hi. lia. }
  rewrite E in H. apply (f_equal (fun o => match o with Some d => d | None => [] end)) in H.
  cbv beta iota in H. subst dist. exists (c0 :: cs). split; [reflexivity|].
  split; [reflexivity|]. rewrite map_map. generalize (c0 :: cs) as l.
  induction l as [|c l IH]; [reflexivity|]. simpl. simpl in IH. z_cases; lia.
Qed.

Lemma generate_report_signal_distribution_counts_witness :
  generate_report_signal_distribution ex_state = Some (rows_of (generate_report_signal_distribution ex_state))
  /\ exists cot_df, bt_cot_data ex_state = Some cot_df
  /\ rows_of (generate_report_signal_distribution ex_state)
     = map (fun i => (nth i signal_labels EmptyString,
                      List.length (filter (fun c => (nth i signal_bins 0 <? commercial_net c)
                                                     && (commercial_net c <=? nth (S i) signal_bins 0)) cot_df)))
         (seq 0 7)
  /\ list_sum (map snd (rows_of (generate_report_signal_distribution ex_state)))
     = List.length (filter (fun c => (-200000 <? commercial_net c) && (commercial_net c <=? 200000)) cot_df).
Proof.
  assert (H : generate_report_signal_distribution ex_state = Some (rows_of (generate_report_signal_distribution ex_state)))
    by (vm_compute; reflexivity).
  split; [exact H | exact (generate_report_signal_distribution_counts _ _ H)].
Defined.

Lemma nat_Q_nonzero (n : nat) : (0 < n)%nat -> ~ inject_Z (Z.of_nat n) == 0.
Proof.
  intros Hn E. unfold Qeq in E. simpl in E. lia.
Qed.

Lemma rate_bounds (k n : nat) : (k <= n)%nat -> (0 < n)%nat ->
  (0 <= inject_Z (Z.of_nat k) / inject_Z (Z.of_nat n) * inject_Z 100 <= inject_Z 100)%Q.
Proof.
  intros Hk Hn. pose proof (nat_Q_nonzero n Hn) as Hz.
  assert (Hpos : (0 < inject_Z (Z.of_nat n))%Q).
  { change 0%Q with (inject_Z 0). rewrite <- Zlt_Qlt. lia. }
  assert (E : inject_Z (Z.of_nat k) / inject_Z (Z.of_nat n) * inject_Z 100
              == inject_Z (Z.of_nat k * 100) / inject_Z (Z.of_nat n)).
  { rewrite inject_Z_mult. field. exact Hz. }
  rewrite E. split.
  - apply Qle_shift_div_l; [exact Hpos|]. rewrite Qmult_0_l. change 0%Q with (inject_Z 0).
    rewrite <- Zle_Qle. lia.
  - apply Qle_shift_div_r; [exact Hpos|]. rewrite <- inject_Z_mult, <- Zle_Qle. lia.
Qed.

Lemma simple_analyze_one_row data t r :
  In r (simple_analyze_one data t) ->
  tres_threshold r = t
  /\ tres_trades r = List.length (simple_buy_signals t data)
  /\ (10 < tres_trades r)%nat
  /\ tres_total_pips r == sumQ (map m_pips_change (simple_buy_signals t data))
  /\ (0 <= tres_win_rate r <= inject_Z 100)%Q.
Proof.
  unfold simple_analyze_one. cbv zeta.
  destruct (10 <? List.length (simple_buy_signals t data))%nat eqn:E; [|intros []].
  apply Nat.ltb_lt in E. intros [<-|[]]. simpl.
  split; [reflexivity | split; [reflexivity | split; [exact E | split]]].
  - unfold meanQ. rewrite length_map. field. apply nat_Q_nonzero. lia.
  - apply rate_bounds; [apply filter_length_le' | lia].
Qed.

Lemma simple_analyze_one_length data t : (List.length (simple_analyze_one data t) <= 1)%nat.
Proof. unfold simple_analyze_one. destruct (10 <? _)%nat; simpl; lia. Qed.

Lemma simple_buy_signals_mono t1 t2 data : t1 < t2 ->
  (List.length (simple_buy_signals t1 data) <= List.length (simple_buy_signals t2 data))%nat.
Proof.
  intros Ht. apply subseq_length, filter_subseq. intros r Hr.
  apply Z.ltb_lt in Hr. apply Z.ltb_lt. lia.
Qed.

(** X13: each row of [SimpleBacktester.analyze_thresholds] is for a
    threshold of the sweep with more than 10 signals: [trades] is the number
    of buy signals, [total_pips] (a mean times a count) equals their sum of
    [pips_change], and the win rate lies in [0, 100]; every sweep threshold
    with more than 10 signals has its row, and the rows come in strictly
    increasing threshold order with non-decreasing [trades]. *)
Theorem simple_analyze_thresholds_table data :
  (forall r, In r (simple_analyze_thresholds data) ->
     In (tres_threshold r) simple_thresholds
     /\ tres_trades r = List.length (simple_buy_signals (tres_threshold r) data)
     /\ (10 < tres_trades r)%nat
     /\ tres_total_pips r == sumQ (map m_pips_change (simple_buy_signals (tres_threshold r) data))
     /\ (0 <= tres_win_rate r <= inject_Z 100)%Q)
  /\ (forall t, In t simple_thresholds -> (10 < List.length (simple_buy_signals t data))%nat ->
        exists r, In r (simple_analyze_thresholds data) /\ tres_threshold r = t)
  /\ StronglySorted (fun a b => tres_threshold a < tres_threshold b /\ (tres_trades a <= tres_trades b)%nat)
       (simple_analyze_thresholds data).
Proof.
  unfold simple_analyze_thresholds. split; [|split].
  - intros r Hr. apply in_flat_map in Hr as (t & Ht & Hr).
    pose proof (simple_analyze_one_row _ _ _ Hr) as (-> & H). auto.
  - intros t Ht Hn. unfold simple_analyze_one.
    eexists. split; [apply in_flat_map; exists t; split; [exact Ht|]|].
    + cbv zeta. apply Nat.ltb_lt in Hn. rewrite Hn. now left.
    + reflexivity.
  - apply (flat_map_StronglySorted Z.lt); [|apply simple_analyze_one_length|].
    + unfold simple_thresholds. repeat constructor.
    + intros a a' b b' Ha Hb Hb'.
      apply simple_analyze_one_row in Hb as (-> & -> & _), Hb' as (-> & -> & _).
      split; [exact Ha | now apply simple_buy_signals_mono].
Qed.

Lemma idxmax_total_pips_spec first rest :
  In (idxmax_total_pips first rest) (first :: rest)
  /\ forall r, In r (first :: rest) -> (tres_total_pips r <= tres_total_pips (idxmax_total_pips first rest))%Q.
Proof.
  unfold idxmax_total_pips. revert first.
  induction rest as [|x rest IH]; intros first; simpl.
  - split; [now left|]. intros r [<-|[]]. apply Qle_refl.
  - destruct (Qltb (tres_total_pips first) (tres_total_pips x)) eqn:E.
    + destruct (IH x) as [Hin Hmax]. split.
      * destruct Hin as [<-|Hin]; [right; now left | right; now right].
      * intros r [<-|[<-|Hr]].
        -- apply Qltb_iff in E. apply Qle_trans with (tres_total_pips x);
             [now apply Qlt_le_weak | apply Hmax; now left].
        -- apply Hmax. now left.
        -- apply Hmax. now right.
    + destruct (IH first) as [Hin Hmax]. split.
      * destruct Hin as [<-|Hin]; [now left | right; now right].
      * intros r [<-|[<-|Hr]].
        -- apply Hmax. now left.
        -- apply Qle_trans with (tres_total_pips first); [|apply Hmax; now left].
           apply Qnot_lt_le. intros Hlt. apply Qltb_iff in Hlt. congruence.
        -- apply Hmax. now right.
Qed.

(** X14: the [best_threshold] of [SimpleBacktester.generate_report] is a row
    of its threshold table, so it has more than 10 signals, and no row of the
    table has a larger [total_pips]. *)
Theorem simple_best_threshold_total_pips data r :
  simple_generate_report_best_threshold data = Some r ->
  In r (simple_analyze_thresholds data)
  /\ (10 < tres_trades r)%nat
  /\ (forall r', In r' (simple_analyze_thresholds data) -> (tres_total_pips r' <= tres_total_pips r)%Q).
Proof.
  unfold simple_generate_report_best_threshold. destruct data as [|d0 ds]; [discriminate|].
  destruct (simple_analyze_thresholds (d0 :: ds)) as [|x xs] eqn:E; [discriminate|].
  intros H; injection H as <-. destruct (idxmax_total_pips_spec x xs) as [Hin Hmax].
  split; [exact Hin | split; [|exact Hmax]].
  destruct (simple_analyze_thresholds_table (d0 :: ds)) as [Hrow _].
  rewrite E in Hrow. apply (Hrow _ Hin).
Qed.

Lemma simple_best_threshold_total_pips_witness :
  simple_generate_report_best_threshold (ex_merged 12)
    = Some (match simple_generate_report_best_threshold (ex_merged 12) with
            | Some r => r | None => mk_tres 0 0 0 0 0 end)
  /\ In (match simple_generate_report_best_threshold (ex_merged 12) with
         | Some r => r | None => mk_tres 0 0 0 0 0 end) (simple_analyze_thresholds (ex_merged 12))
  /\ (10 < tres_trades (match simple_generate_report_best_threshold (ex_merged 12) with
                        | Some r => r | None => mk_tres 0 0 0 0 0 end))%nat
  /\ (forall r', In r' (simple_analyze_thresholds (ex_merged 12)) ->
        (tres_total_pips r' <= tres_total_pips (match simple_generate_report_best_threshold (ex_merged 12) with
                                                | Some r => r | None => mk_tres 0 0 0 0 0 end))%Q).
Proof.
  assert (H : simple_generate_report_best_threshold (ex_merged 12)
    = Some (match simple_generate_report_best_threshold (ex_merged 12) with
            | Some r => r | None => mk_tres 0 0 0 0 0 end)) by (vm_compute; reflexivity).
  split; [exact H | exact (simple_best_threshold_total_pips _ _ H)].
Defined.

Lemma day_pips_of_map threshold days rows :
  day_pips_of threshold days rows
  = map (fun p => (p / inject_Z 5 * inject_Z days)%Q) (map m_pips_change (simple_buy_signals threshold rows)).
Proof.
  unfold simple_buy_signals. induction rows as [|row rs IH]; simpl; [reflexivity|].
  destruct (m_commercial_net row <? threshold); simpl; [f_equal|]; exact IH.
Qed.

Lemma sumQ_map_scale (l : list Q) (c : Q) :
  sumQ (map (fun p => (p / inject_Z 5 * c)%Q) l) == (sumQ l / inject_Z 5 * c)%Q.
Proof.
  induction l as [|x l IH]; simpl map; rewrite ?sumQ_cons.
  - reflexivity.
  - rewrite IH. field.
Qed.

Lemma meanQ_scale (l : list Q) (d : Z) : l <> [] ->
  meanQ (map (fun p => (p / inject_Z 5 * inject_Z d)%Q) l) == (inject_Z d / inject_Z 5 * meanQ l)%Q.
Proof.
  intros Hl. unfold meanQ. rewrite length_map, sumQ_map_scale.
  assert (Hn : (0 < List.length l)%nat) by (destruct l; [congruence | simpl; lia]).
  pose proof (nat_Q_nonzero _ Hn). field. exact H.
Qed.

Lemma Qltb_0_scale (p : Q) (d : Z) : 0 < d -> Qltb 0 (p / inject_Z 5 * inject_Z d) = Qltb 0 p.
Proof.
  intros Hd. apply Bool.eq_iff_eq_true. rewrite !Qltb_iff.
  assert (E : (p / inject_Z 5 * inject_Z d == p * (inject_Z d / inject_Z 5))%Q)
    by field.
  assert (Hz : (0 < inject_Z d / inject_Z 5)%Q).
  { apply Qlt_shift_div_l; [unfold Qlt; simpl; lia|]. rewrite Qmult_0_l.
    change 0%Q with (inject_Z 0). rewrite <- Zlt_Qlt. exact Hd. }
  rewrite E. split; intros H.
  - apply (Qmult_lt_r 0 p _ Hz). rewrite Qmult_0_l. exact H.
  - rewrite <- (Qmult_0_l (inject_Z d / inject_Z 5)). apply Qmult_lt_r; assumption.
Qed.

Lemma flat_map_singletons {A B : Type} (f : A -> list B) (g : A -> B) l :
  (forall a, In a l -> f a = [g a]) -> flat_map f l = map g l.
Proof.
  induction l as [|a l IH]; intros H; simpl; [reflexivity|].
  rewrite (H a (or_introl eq_refl)). simpl. f_equal. apply IH. intros a' Ha'. apply H. now right.
Qed.

Lemma simple_holding_one_eq data threshold d :
  simple_buy_signals threshold data <> [] ->
  simple_holding_one data threshold d
  = [mk_hres d (meanQ (day_pips_of threshold d data))
       (inject_Z (Z.of_nat (List.length (filter (fun p => Qltb 0 p) (day_pips_of threshold d data))))
        / inject_Z (Z.of_nat (List.length (day_pips_of threshold d data))) * inject_Z 100)%Q
       (List.length (day_pips_of threshold d data))].
Proof.
  intros Hs. unfold simple_holding_one.
  destruct (day_pips_of threshold d data) eqn:E; [|reflexivity].
  rewrite day_pips_of_map in E. apply map_eq_nil, map_eq_nil in E. contradiction.
Qed.

(** X15: [SimpleBacktester.analyze_holding_periods(threshold)] returns no
    row when no week has [commercial_net < threshold]; otherwise one row per
    holding period 1 to 5 days, in that order, each over all the signal weeks,
    whose average is [days / 5] times the mean weekly [pips_change] and whose
    win rate is the weekly one, the same for every holding period. *)
Theorem simple_holding_periods_linear data threshold :
  (simple_buy_signals threshold data = [] -> simple_analyze_holding_periods data threshold = [])
  /\ (simple_buy_signals threshold data <> [] ->
      map hres_hold_days (simple_analyze_holding_periods data threshold) = holding_days
      /\ Forall (fun h =>
           hres_trades h = List.length (simple_buy_signals threshold data)
           /\ hres_avg_pips h == (inject_Z (hres_hold_days h) / inject_Z 5
                                  * meanQ (map m_pips_change (simple_buy_signals threshold data)))%Q
           /\ hres_win_rate h
              = (inject_Z (Z.of_nat (List.length (filter (fun r => Qltb 0 (m_pips_change r))
                                                    (simple_buy_signals threshold data))))
                 / inject_Z (Z.of_nat (List.length (simple_buy_signals threshold data))) * inject_Z 100)%Q)
         (simple_analyze_holding_periods data threshold)).
Proof.
  unfold simple_analyze_holding_periods. split.
  - intros Hs. unfold holding_days. simpl. unfold simple_holding_one.
    rewrite !day_pips_of_map, Hs. reflexivity.
  - intros Hs. rewrite (flat_map_singletons _ _ holding_days (fun d _ => simple_holding_one_eq data threshold d Hs)).
    split.
    + rewrite map_map. simpl. reflexivity.
    + apply Forall_forall. intros h Hh. apply in_map_iff in Hh as (d & <- & Hd).
      assert (Hd0 : 0 < d) by (simpl in Hd; intuition; subst; lia).
      simpl. rewrite !day_pips_of_map, !map_map, !length_map. split; [reflexivity | split].
      * rewrite <- (map_map m_pips_change (fun p => (p / inject_Z 5 * inject_Z d)%Q)).
        apply meanQ_scale. intros E. apply map_eq_nil in E. contradiction.
      * rewrite filter_map_length. do 5 f_equal. apply filter_ext. intros r. now apply Qltb_0_scale.
Qed.

(** X16: every row of [DataEngine.merge_data] comes from a COT report whose
    week window [cot_date + 3 .. cot_date + 8] holds price rows [w0 :: ws]:
    its [week_low] and [week_high] are the least low and the greatest high of
    those rows (bounds that some row attains), and its [pips_change] and
    [percent_change] are computed from its entry and exit prices. *)
Theorem merge_data_week_range cots ps r :
  In r (rows_of (merge_data (mk_engine (Some cots) (Some ps)))) ->
  exists c w0 ws, In c cots
  /\ loc_slice (cot_date c + 3) (cot_date c + 3 + 5) ps = w0 :: ws
  /\ (forall w, In w (w0 :: ws) -> (m_week_low r <= o_low w)%Q /\ (o_high w <= m_week_high r)%Q)
  /\ In (m_week_low r) (map o_low (w0 :: ws)) /\ In (m_week_high r) (map o_high (w0 :: ws))
  /\ m_pips_change r = ((m_exit_price r - m_entry_price r) * inject_Z 10000)%Q
  /\ m_percent_change r = ((m_exit_price r / m_entry_price r - 1) * inject_Z 100)%Q.
Proof.
  simpl. intros Hr.
  destruct (loop_pairs _ _ (merge_one ps) (merge_loop ps) eq_refl (merge_loop_cons ps) cots)
    as (cs & Hsub & Hf).
  destruct (Forall2_in_r _ _ _ _ Hf Hr) as (c & Hc & Hcr).
  exists c. unfold merge_one in Hcr. cbv zeta in Hcr.
  destruct (loc_slice (cot_date c + 3) (cot_date c + 3 + 5) ps) as [|w0 ws] eqn:E; [discriminate|].
  injection Hcr as <-. exists w0, ws. simpl.
  destruct (fold_Qmax'_spec (map o_high ws) (o_high w0)) as [Hhi Hhin].
  destruct (fold_Qmin'_spec (map o_low ws) (o_low w0)) as [Hlo Hlin].
  split; [exact (subseq_in _ _ _ Hsub Hc)|]. split; [reflexivity|].
  split; [|auto].
  intros w Hw. split.
  - apply Hlo. change (o_low w0 :: map o_low ws) with (map o_low (w0 :: ws)). now apply in_map.
  - apply Hhi. change (o_high w0 :: map o_high ws) with (map o_high (w0 :: ws)). now apply in_map.
Qed.

Lemma merge_data_week_range_witness :
  In (nth 0 (rows_of (merge_data ex_engine)) (mk_merged 0 0 0 0 0 0 0 0 0 0)) (rows_of (merge_data ex_engine))
  /\ exists c w0 ws, In c ex_engine_cots
  /\ loc_slice (cot_date c + 3) (cot_date c + 3 + 5) ex_engine_prices = w0 :: ws
  /\ (forall w, In w (w0 :: ws) ->
        (m_week_low (nth 0 (rows_of (merge_data ex_engine)) (mk_merged 0 0 0 0 0 0 0 0 0 0)) <= o_low w)%Q
        /\ (o_high w <= m_week_high (nth 0 (rows_of (merge_data ex_engine)) (mk_merged 0 0 0 0 0 0 0 0 0 0)))%Q)
  /\ In (m_week_low (nth 0 (rows_of (merge_data ex_engine)) (mk_merged 0 0 0 0 0 0 0 0 0 0))) (map o_low (w0 :: ws))
  /\ In (m_week_high (nth 0 (rows_of (merge_data ex_engine)) (mk_merged 0 0 0 0 0 0 0 0 0 0))) (map o_high (w0 :: ws))
  /\ m_pips_change (nth 0 (rows_of (merge_data ex_engine)) (mk_merged 0 0 0 0 0 0 0 0 0 0))
     = ((m_exit_price (nth 0 (rows_of (merge_data ex_engine)) (mk_merged 0 0 0 0 0 0 0 0 0 0))
         - m_entry_price (nth 0 (rows_of (merge_data ex_engine)) (mk_merged 0 0 0 0 0 0 0 0 0 0))) * inject_Z 10000)%Q
  /\ m_percent_change (nth 0 (rows_of (merge_data ex_engine)) (mk_merged 0 0 0 0 0 0 0 0 0 0))
     = ((m_exit_price (nth 0 (rows_of (merge_data ex_engine)) (mk_merged 0 0 0 0 0 0 0 0 0 0))
         / m_entry_price (nth 0 (rows_of (merge_data ex_engine)) (mk_merged 0 0 0 0 0 0 0 0 0 0)) - 1) * inject_Z 100)%Q.
Proof.
  assert (H : In (nth 0 (rows_of (merge_data ex_engine)) (mk_merged 0 0 0 0 0 0 0 0 0 0)) (rows_of (merge_data ex_engine)))
    by (vm_compute; now left).
  split; [exact H | exact (merge_data_week_range ex_engine_cots ex_engine_prices _ H)].
Defined.

Lemma pips_trichotomy_count (l : list Q) :
  (List.length (pos_pips l) + List.length (neg_pips l) + List.length (filter (fun p => Qeq_bool p 0) l))%nat
  = List.length l.
Proof.
  unfold pos_pips, neg_pips. induction l as [|p l IH]; simpl; [reflexivity|].
  destruct (Qltb 0 p) eqn:E1, (Qltb p 0) eqn:E2, (Qeq_bool p 0) eqn:E3; simpl; try lia; exfalso.
  - apply Qltb_iff in E1, E2. lra.
  - apply Qltb_iff in E1, E2. lra.
  - apply Qltb_iff in E1. apply Qeq_bool_iff in E3. lra.
  - apply Qltb_iff in E2. apply Qeq_bool_iff in E3. lra.
  - apply Qeq_bool_neq in E3. apply E3.
    assert (H1 : ~ (0 < p)%Q) by (intros H; apply Qltb_iff in H; congruence).
    assert (H2 : ~ (p < 0)%Q) by (intros H; apply Qltb_iff in H; congruence).
    apply Qnot_lt_le in H1, H2. apply Qle_antisym; assumption.
Qed.

(** X17: the trade counts of [get_strategy_stats]: [total_trades] is the
    number of simulated trades (at least one), [winning_trades] is the number
    of rows flagged [win], and the trades with [net_pips = 0] are counted
    neither as winning nor as losing, so that winning, losing and break-even
    trades add up to [total_trades]. *)
Theorem get_strategy_stats_trade_counts_partition self threshold t w l :
  get_strategy_stats_trade_counts self threshold = Some (t, w, l) ->
  exists trades, backtest_threshold_default self threshold = Some trades
  /\ t = List.length trades /\ (1 <= t)%nat
  /\ w = List.length (filter tr_win trades)
  /\ (w + l + List.length (filter (fun p => Qeq_bool p 0) (net_pips_of trades)))%nat = t.
Proof.
  intros H. destruct (backtest_threshold_default self threshold) as [trades|] eqn:Eb;
    [|unfold get_strategy_stats_trade_counts in H; rewrite Eb in H; discriminate].
  assert (Hne : trades <> []).
  { intros ->. unfold get_strategy_stats_trade_counts in H. rewrite Eb in H. discriminate. }
  assert (E : get_strategy_stats_trade_counts self threshold
              = Some (List.length trades, List.length (pos_pips (net_pips_of trades)),
                      List.length (neg_pips (net_pips_of trades)))).
  { unfold get_strategy_stats_trade_counts. rewrite Eb. destruct trades; [congruence | reflexivity]. }
  rewrite E in H. injection H as <- <- <-. exists trades.
  split; [reflexivity | split; [reflexivity | split; [destruct trades; [congruence | simpl; lia] | split]]].
  - unfold pos_pips, net_pips_of. rewrite filter_map_length.
    apply backtest_threshold_inv in Eb as (aligned & _ & _ & Et).
    pose proof (trade_ledger_columns (inject_Z 10000) (position_size_of (inject_Z 10000) (1 # 100)) 0 spread_pips
                  (select_signals threshold aligned)) as Hc.
    rewrite <- Et in Hc. f_equal. apply filter_ext_in. intros x Hx.
    rewrite Forall_forall in Hc. destruct (Hc x Hx) as (_ & _ & ->). reflexivity.
  - pose proof (pips_trichotomy_count (net_pips_of trades)) as Ht. unfold net_pips_of in *.
    rewrite length_map in Ht. lia.
Qed.

Lemma get_strategy_stats_trade_counts_partition_witness :
  get_strategy_stats_trade_counts ex_state (-50000) = Some (1, 0, 1)%nat
  /\ exists trades, backtest_threshold_default ex_state (-50000) = Some trades
  /\ 1%nat = List.length trades /\ (1 <= 1)%nat
  /\ 0%nat = List.length (filter tr_win trades)
  /\ (0 + 1 + List.length (filter (fun p => Qeq_bool p 0) (net_pips_of trades)))%nat = 1%nat.
Proof.
  assert (H : get_strategy_stats_trade_counts ex_state (-50000) = Some (1, 0, 1)%nat) by (vm_compute; reflexivity).
  split; [exact H | exact (get_strategy_stats_trade_counts_partition ex_state (-50000) 1 0 1 H)].
Defined.
